(** * Travel assistant: agent loop, tool dispatch, sessions and ingestion

    A shallow embedding of the Python sources

    - [app/tools.py]     ([pdf_search], [web_search]),
    - [app/agents.py]    ([agent_node], [tool_node], [router], the graph),
    - [api/server.py]    (the session map and the [/chat] handler),
    - [app/retriever.py] ([build_or_load_vectorstore]),

    followed by the properties of the specification that concern them.

    The front ends [ui/interface.py] and [run.py] are embedded as well.

    The language model, the retriever, the web-search provider and the
    vector store are third-party collaborators.  They are not modelled:
    every definition takes them as the fields of a [World] record (or, for
    the ingestion pipeline, as the variables of a section), and every
    theorem holds for all of them. *)

From Stdlib Require Import ZArith Lia.
From stdpp Require Import base option list strings gmap fin_maps.

(** ** Python values and exceptions *)

Module Py.

(** The exceptions that the modelled code raises by itself. *)
Inductive exn : Type :=
| KeyError (key : string)   (* [d[k]] with [k] absent from the dict [d] *)
| IndexError                (* [l[-1]] on an empty list *)
| AttributeError (type_name attribute : string)
                            (* [o.a] on an object without attribute [a] *)
| EOFError.                 (* [input()] on a closed input *)

(** A computation of the modelled code: a value, or an exception that
    leaves the function. *)
Inductive result (A : Type) : Type :=
| Return (a : A)
| Raise (e : exn).
Arguments Return {A} a.
Arguments Raise {A} e.

(** A call into a collaborator.  Whatever [Exception] the collaborator
    raises, the sources only ever look at [str(e)]: that text is the
    [reason]. *)
Inductive outcome (A : Type) : Type :=
| Returns (a : A)
| Raises (reason : string).
Arguments Returns {A} a.
Arguments Raises {A} reason.

(** A [dict] from strings to strings, in insertion order. *)
Definition dict : Type := list (string * string).

(** [d.get(k, default)] *)
Fixpoint get (d : dict) (k : string) (default : string) : string :=
  match d with
  | [] => default
  | (k', v) :: d' => if String.eqb k' k then v else get d' k default
  end.


(** [sep.join(l)] *)
Fixpoint join (sep : string) (l : list string) : string :=
  match l with
  | [] => ""
  | [s] => s
  | s :: l' => s +:+ sep +:+ join sep l'
  end.

(** Truth value of a string and of a list. *)
Definition truthy_str (s : string) : bool :=
  match s with EmptyString => false | String _ _ => true end.

Definition truthy_list {A : Type} (l : list A) : bool :=
  match l with [] => false | _ :: _ => true end.

(** [str(e)] of an [AttributeError]. *)
Definition attribute_error_text (type_name attribute : string) : string :=
  "'" +:+ type_name +:+ "' object has no attribute '" +:+ attribute +:+ "'".

(** The line feed of ["\n"]. *)
Definition LF : string := String (Ascii.ascii_of_nat 10) EmptyString.

End Py.

Import Py.

(** ** Messages ([langchain_core.messages]) *)

(** An element of [AIMessage.tool_calls].  The [ToolCall] of
    [langchain_core] is a [TypedDict]: at run time a plain [dict], here
    with its keys ["name"], ["args"] and ["id"]. *)
Record ToolCall : Type := {
  call_name : string;
  call_args : dict;
  call_id : string
}.

(** What [call.args] would be if a call had that attribute: a dict, or
    something else, which the sources only pass to [str()] and which is
    therefore kept as that text. *)
Inductive Args : Type :=
| ArgsDict (d : dict)
| ArgsOther (str : string).

(** The attribute [a] of a tool call, for the three names the sources
    read ([call.name], [call.args], [call.id]).  A dict keeps its entries
    under keys, not under attributes: it has none of the three, so
    [hasattr(call, a)] is false and [call.a] raises
    [AttributeError("'dict' object has no attribute 'a'")]. *)
Definition attribute {A : Type} (call : ToolCall) (a : string) : option A :=
  None.

Inductive Message : Type :=
| HumanMessage (content : string)
| AIMessage (content : string) (tool_calls : list ToolCall)
| ToolMessage (tool_call_id : string) (content : string).

(** [message.content] *)
Definition content_of (m : Message) : string :=
  match m with
  | HumanMessage c => c
  | AIMessage c _ => c
  | ToolMessage _ c => c
  end.

(** [getattr(message, "tool_calls", [])]: only an [AIMessage] has the
    attribute. *)
Definition tool_calls_of (m : Message) : list ToolCall :=
  match m with
  | AIMessage _ tcs => tcs
  | _ => []
  end.

(** [class GraphState(TypedDict): messages: List[BaseMessage]] *)
Record GraphState : Type := { messages : list Message }.

(** What [agent.invoke] hands back: a dict with a ["messages"] key, or
    anything else. *)
Inductive InvokeValue : Type :=
| ResultMessages (msgs : list Message)
| ResultOther.

(** ** The collaborators *)

Record World : Type := {
  (** [str(d)] of a dict (a Python builtin). *)
  py_str_dict : dict -> string;
  (** [retriever.get_relevant_documents(query)]: the page contents. *)
  retriever_get_relevant_documents : string -> outcome (list string);
  (** [duckduckgo.run(query)] *)
  duckduckgo_run : string -> outcome string;
  (** [agent.invoke({"messages": messages})] *)
  agent_invoke : list Message -> outcome InvokeValue
}.

(** ** [app/tools.py] *)

Module Tools.

(** [langchain.tools.Tool], with the two attributes the graph uses. *)
Record Tool : Type := {
  tool_name : string;
  func : string -> outcome string
}.

Definition pdf_search (w : World) (query : string) : outcome string :=
  match retriever_get_relevant_documents w query with
  | Raises r => Raises r
  | Returns docs =>
      if truthy_list docs
      then Returns (join (LF +:+ LF) docs)
      else Returns "No relevant documents found in the PDF database."
  end.

Definition pdf_search_tool (w : World) : Tool :=
  {| tool_name := "pdf_search"; func := pdf_search w |}.

Definition web_search (w : World) (query : string) : outcome string :=
  match duckduckgo_run w query with
  | Raises r => Raises r
  | Returns result =>
      if truthy_str result then Returns result
      else Returns "No web results found."
  end.

Definition web_search_tool (w : World) : Tool :=
  {| tool_name := "web_search"; func := web_search w |}.

End Tools.

(** ** [app/agents.py] *)

Module Agents.
Import Tools.

Definition tools (w : World) : list Tool :=
  [pdf_search_tool w; web_search_tool w].

(** [{tool.name: tool for tool in tools}]: a later tool of the same name
    would replace an earlier one. *)
Definition tool_map (w : World) : gmap string Tool :=
  foldl (fun m tool => <[tool_name tool := tool]> m) ∅ (tools w).

Definition apology : Message :=
  AIMessage "Sorry, I encountered an error. Please try again." [].

(** [agent_node].  The list is appended to in place; the [try] covers the
    model call and the [[-1]], so an empty ["messages"] in the result
    (an [IndexError]) ends in the [except] branch as well. *)
Definition agent_node (w : World) (state : GraphState) : GraphState :=
  let messages := messages state in
  match agent_invoke w messages with
  | Raises _ => {| messages := messages ++ [apology] |}
  | Returns ResultOther => {| messages := messages |}
  | Returns (ResultMessages result_messages) =>
      match last result_messages with
      | None => {| messages := messages ++ [apology] |}
      | Some (AIMessage c tcs) =>
          {| messages := messages ++ [AIMessage c tcs] |}
      | Some _ => {| messages := messages |}
      end
  end.

(** The query for the tool: the [if hasattr(call, 'args')] with its two
    inner branches, and the [else]. *)
Definition extract_query (w : World) (call : ToolCall) : string :=
  match attribute call "args" with
  | Some (ArgsDict d) =>
      get d "query" (get d "__arg1" (py_str_dict w d))
  | Some (ArgsOther s) => s
  | None => "general search"
  end.

(** The [try]/[except] of the loop of [tool_node], after the lookup of
    the tool.  The [except] catches what [tool.func] raises and what
    [call.id] raises inside the [try], and reads [call.id] itself: what
    that raises leaves the loop. *)
Definition call_tool (w : World) (tool : Tool) (call : ToolCall)
  : result Message :=
  let except_branch (e : string) : result Message :=
    match attribute call "id" with
    | None => Raise (AttributeError "dict" "id")
    | Some id =>
        Return (ToolMessage id ("Tool " +:+ tool_name tool +:+ " failed: " +:+ e))
    end in
  match func tool (extract_query w call) with
  | Raises e => except_branch e
  | Returns result =>
      match attribute call "id" with
      | None => except_branch (attribute_error_text "dict" "id")
      | Some id => Return (ToolMessage id result)
      end
  end.

(** The [for] loop of [tool_node] over the remaining calls, with the
    [tool_outputs] gathered so far.  [tool_map[call.name]] stands outside
    the [try]: what [call.name] or the lookup raises leaves the loop. *)
Fixpoint for_calls (w : World) (calls : list ToolCall)
    (tool_outputs : list Message) : result (list Message) :=
  match calls with
  | [] => Return tool_outputs
  | call :: rest =>
      match attribute call "name" with
      | None => Raise (AttributeError "dict" "name")
      | Some name =>
          match tool_map w !! name with
          | None => Raise (KeyError name)
          | Some tool =>
              match call_tool w tool call with
              | Raise e => Raise e
              | Return output => for_calls w rest (tool_outputs ++ [output])
              end
          end
      end
  end.

Definition tool_node (w : World) (state : GraphState) : result GraphState :=
  let messages := messages state in
  match last messages with
  | None => Raise IndexError
  | Some last_msg =>
      match for_calls w (tool_calls_of last_msg) [] with
      | Raise e => Raise e
      | Return tool_outputs => Return {| messages := messages ++ tool_outputs |}
      end
  end.

Inductive Route : Type := RouteTools | RouteEnd.

Definition router (state : GraphState) : result Route :=
  match last (messages state) with
  | None => Raise IndexError
  | Some (AIMessage c tcs) =>
      if truthy_list tcs then Return RouteTools
      else if truthy_str c then Return RouteEnd
      else Return RouteEnd
  | Some _ => Return RouteEnd
  end.

(** *** The compiled graph

    Entry point [agent]; after [agent] the [router] chooses between
    [tools] and [END]; after [tools] the edge leads back to [agent].
    The sources put no bound on the number of rounds (the recursion limit
    of the graph library is not modelled), so the run is defined with
    fuel: one unit per visit of [agent]. *)

Inductive Node : Type := NodeAgent | NodeTools.

Inductive Status : Type :=
| Done                (* the router chose [END] *)
| Crashed (e : exn)   (* a node raised *)
| OutOfFuel.          (* the rounds allowed by the fuel are used up *)

Record Run : Type := {
  run_state : GraphState;   (* the state when the run stopped *)
  run_status : Status;
  run_trace : list Node     (* the nodes executed, in order *)
}.

Fixpoint run_graph (w : World) (fuel : nat) (state : GraphState)
    (trace : list Node) : Run :=
  match fuel with
  | O => {| run_state := state; run_status := OutOfFuel; run_trace := trace |}
  | S fuel' =>
      let state1 := agent_node w state in
      let trace1 := trace ++ [NodeAgent] in
      match router state1 with
      | Raise e =>
          {| run_state := state1; run_status := Crashed e; run_trace := trace1 |}
      | Return RouteEnd =>
          {| run_state := state1; run_status := Done; run_trace := trace1 |}
      | Return RouteTools =>
          match tool_node w state1 with
          | Raise e =>
              {| run_state := state1; run_status := Crashed e;
                 run_trace := trace1 ++ [NodeTools] |}
          | Return state2 =>
              run_graph w fuel' state2 (trace1 ++ [NodeTools])
          end
      end
  end.

(** [app.invoke(state)] *)
Definition invoke (w : World) (fuel : nat) (state : GraphState) : Run :=
  run_graph w fuel state [].

(** The text the callers show: [result["messages"][-1].content]. *)
Definition answer (state : GraphState) : option string :=
  content_of <$> last (messages state).

End Agents.

(** ** [api/server.py] *)

Module Server.
Import Agents.

(** A [datetime] is a count of microseconds, the resolution of a Python
    [datetime]; the difference of two of them (a [timedelta]) is exact. *)
Definition datetime : Type := Z.

Record ChatMessage : Type := {
  role : string;
  content : string;
  timestamp : datetime
}.

Record ChatRequest : Type := {
  message : string;
  session_id : option string
}.

Record ChatResponse : Type := {
  response : string;
  response_session_id : string;
  response_timestamp : datetime;
  sources_used : list string
}.

(** A value of the dict [chat_sessions]. *)
Record Session : Type := {
  session_messages : list ChatMessage;   (* ["messages"] *)
  agent_state : GraphState;              (* ["agent_state"] *)
  created_at : datetime;
  last_activity : datetime;
  message_count : nat
}.

(** What a route answers: a value, or the [HTTPException] it raises. *)
Inductive Detail : Type :=
| SessionNotFound
| InternalServerError (e : exn).

Inductive http (A : Type) : Type :=
| OK (a : A)
| HTTPException (status_code : nat) (detail : Detail).
Arguments OK {A} a.
Arguments HTTPException {A} status_code detail.

Definition new_session (now : datetime) : Session :=
  {| session_messages := [];
     agent_state := {| messages := [] |};
     created_at := now;
     last_activity := now;
     message_count := 0 |}.

(** [get_or_create_session].  [new_session_id] is what
    [create_session_id()] (a [uuid4]) would give, [now] the reading of
    the clock. *)
Definition get_or_create_session (chat_sessions : gmap string Session)
    (session_id : option string) (new_session_id : string) (now : datetime)
  : string * gmap string Session :=
  let create :=
    (new_session_id, <[new_session_id := new_session now]> chat_sessions) in
  match session_id with
  | None => create
  | Some sid =>
      if truthy_str sid then
        match chat_sessions !! sid with
        | Some s =>
            (sid,
             <[sid := {| session_messages := session_messages s;
                         agent_state := agent_state s;
                         created_at := created_at s;
                         last_activity := now;
                         message_count := message_count s |}]> chat_sessions)
        | None => create
        end
      else create
  end.

(** The inner loop of [determine_sources_used] over the calls of one
    message, with the [sources] gathered so far.  [tool_call.name] is
    read from a dict. *)
Fixpoint sources_of_calls (tool_calls : list ToolCall) (sources : list string)
  : result (list string) :=
  match tool_calls with
  | [] => Return sources
  | tool_call :: rest =>
      match attribute tool_call "name" with
      | None => Raise (AttributeError "dict" "name")
      | Some name =>
          if String.eqb name "pdf_search"
          then sources_of_calls rest (sources ++ ["PDF Documents"])
          else if String.eqb name "web_search"
          then sources_of_calls rest (sources ++ ["Web Search"])
          else sources_of_calls rest sources
      end
  end.

(** The outer loop, over the messages. *)
Fixpoint collect_sources (msgs : list Message) (sources : list string)
  : result (list string) :=
  match msgs with
  | [] => Return sources
  | message :: rest =>
      match sources_of_calls (tool_calls_of message) sources with
      | Raise e => Raise e
      | Return sources' => collect_sources rest sources'
      end
  end.

(** [determine_sources_used]: [list(set(sources))], in the order the set
    happens to give. *)
Definition determine_sources_used (agent_state : GraphState)
  : result (list string) :=
  match collect_sources (messages agent_state) [] with
  | Raise e => Raise e
  | Return sources => Return (elements (list_to_set sources : gset string))
  end.

(** [POST /chat].  One reading [now] of the clock stands for the
    successive [datetime.now()] of one request.  The graph appends to the
    very list held by the session, so what it appended before a node
    raised stays in the session; and the sources are determined after the
    session was updated, so the update stays when that raises.  [None]:
    the fuel did not suffice for the run of the graph. *)
Definition chat (w : World) (fuel : nat) (chat_sessions : gmap string Session)
    (request : ChatRequest) (new_session_id : string) (now : datetime)
  : option (http ChatResponse * gmap string Session) :=
  let '(session_id, chat_sessions1) :=
    get_or_create_session chat_sessions (session_id request) new_session_id now in
  match chat_sessions1 !! session_id with
  | None =>
      Some (HTTPException 500 (InternalServerError (KeyError session_id)),
            chat_sessions1)
  | Some session =>
      let user_message :=
        {| role := "user"; content := message request; timestamp := now |} in
      let state0 :=
        {| messages := messages (agent_state session)
                         ++ [HumanMessage (message request)] |} in
      let run := invoke w fuel state0 in
      let after_failure (e : exn) :=
        (HTTPException 500 (InternalServerError e),
         <[session_id := {| session_messages :=
                              session_messages session ++ [user_message];
                            agent_state := run_state run;
                            created_at := created_at session;
                            last_activity := last_activity session;
                            message_count := message_count session |}]>
           chat_sessions1) in
      match run_status run with
      | OutOfFuel => None
      | Crashed e => Some (after_failure e)
      | Done =>
          match last (messages (run_state run)) with
          | None => Some (after_failure IndexError)
          | Some latest_message =>
              let bot_response := content_of latest_message in
              let bot_message :=
                {| role := "assistant"; content := bot_response;
                   timestamp := now |} in
              let chat_sessions2 :=
                <[session_id := {| session_messages :=
                                     session_messages session
                                       ++ [user_message] ++ [bot_message];
                                   agent_state := run_state run;
                                   created_at := created_at session;
                                   last_activity := now;
                                   message_count := S (message_count session) |}]>
                  chat_sessions1 in
              match determine_sources_used (run_state run) with
              | Raise e =>
                  Some (HTTPException 500 (InternalServerError e), chat_sessions2)
              | Return sources =>
                  Some (OK {| response := bot_response;
                              response_session_id := session_id;
                              response_timestamp := now;
                              sources_used := sources |},
                        chat_sessions2)
              end
          end
      end
  end.

(** [DELETE /sessions/{session_id}] *)
Definition delete_session (chat_sessions : gmap string Session)
    (session_id : string) : http unit * gmap string Session :=
  match chat_sessions !! session_id with
  | None => (HTTPException 404 SessionNotFound, chat_sessions)
  | Some _ => (OK tt, delete session_id chat_sessions)
  end.

(** [POST /sessions/{session_id}/clear] *)
Definition clear_session (chat_sessions : gmap string Session)
    (session_id : string) : http unit * gmap string Session :=
  match chat_sessions !! session_id with
  | None => (HTTPException 404 SessionNotFound, chat_sessions)
  | Some s =>
      (OK tt,
       <[session_id := {| session_messages := [];
                          agent_state := {| messages := [] |};
                          created_at := created_at s;
                          last_activity := last_activity s;
                          message_count := 0 |}]> chat_sessions)
  end.

(** The test of [cleanup_old_sessions]:
    [time_diff.total_seconds() > 24 * 3600].  [total_seconds()] is the
    float nearest to the number of microseconds divided by [10^6];
    [86400.0] is a float and rounding is monotone, and a difference of
    more than [86400 * 10^6] microseconds is at least [10^-6] seconds
    above it, far more than the spacing of floats there, so the test on
    floats is the test on the microseconds. *)
Definition older_than_24h (current_time : datetime) (session_data : Session)
  : bool :=
  (24 * 3600 * 1000000 <? current_time - last_activity session_data)%Z.

(** [cleanup_old_sessions]: the new map and the number logged.  The keys
    are gathered first and deleted afterwards; the order in which the
    dict is visited has no bearing on either. *)
Definition cleanup_old_sessions (chat_sessions : gmap string Session)
    (current_time : datetime) : gmap string Session * nat :=
  let sessions_to_delete :=
    (filter (fun p => older_than_24h current_time p.2 = true)
            (map_to_list chat_sessions)).*1 in
  (foldl (fun m session_id => delete session_id m) chat_sessions
         sessions_to_delete,
   length sessions_to_delete).

(** [class SessionInfo(BaseModel)] *)
Record SessionInfo : Type := {
  info_session_id : string;
  info_created_at : datetime;
  info_message_count : nat;
  info_last_activity : datetime
}.

(** The [SessionInfo(...)] that [get_session_info] and [list_sessions]
    build from a key and its value. *)
Definition session_info (session_id : string) (session : Session) : SessionInfo :=
  {| info_session_id := session_id;
     info_created_at := created_at session;
     info_message_count := message_count session;
     info_last_activity := last_activity session |}.

(** [GET /sessions/{session_id}] *)
Definition get_session_info (chat_sessions : gmap string Session)
    (session_id : string) : http SessionInfo :=
  match chat_sessions !! session_id with
  | None => HTTPException 404 SessionNotFound
  | Some session => OK (session_info session_id session)
  end.

(** [GET /sessions/{session_id}/messages] *)
Definition get_session_messages (chat_sessions : gmap string Session)
    (session_id : string) : http (list ChatMessage) :=
  match chat_sessions !! session_id with
  | None => HTTPException 404 SessionNotFound
  | Some session => OK (session_messages session)
  end.

(** [GET /sessions]: one [SessionInfo] per item of the dict.  The dict is
    visited in the order of insertion, which the map does not keep: the
    list is the right one up to the order of its entries. *)
Definition list_sessions (chat_sessions : gmap string Session)
  : list SessionInfo :=
  (fun p => session_info p.1 p.2) <$> map_to_list chat_sessions.

End Server.

(** ** [app/retriever.py] *)

Module Retriever.

(** What a run of the pipeline does to its surroundings. *)
Inductive Effect : Type :=
| LoadDocuments          (* [load_documents()] *)
| SplitDocuments         (* [split_documents(docs)] *)
| GetEmbeddingModel      (* [get_embedding_model()] *)
| OpenChroma             (* [Chroma(persist_directory=...)] *)
| ChromaFromDocuments.   (* [Chroma.from_documents(...)]: embeds and stores *)

(** The effects that read, split or embed documents. *)
Definition ingests (e : Effect) : bool :=
  match e with
  | LoadDocuments | SplitDocuments | ChromaFromDocuments => true
  | GetEmbeddingModel | OpenChroma => false
  end.

Section Pipeline.
(** The disk, the documents and the vector store belong to the
    operating system and to the libraries. *)
Variables Disk Document VectorDB : Type.
(** [os.path.exists(CHROMA_DIR)] and [os.listdir(CHROMA_DIR)] *)
Variable path_exists : Disk -> bool.
Variable listdir : Disk -> list string.
(** [DirectoryLoader(path, glob="**/*.pdf", ...).load()] *)
Variable load_documents : Disk -> list Document.
(** [RecursiveCharacterTextSplitter(...).split_documents(documents)] *)
Variable split_documents : list Document -> list Document.
(** [Chroma(persist_directory=CHROMA_DIR, ...)]: the store found on the
    disk, which is only read. *)
Variable Chroma : Disk -> VectorDB.
(** [Chroma.from_documents(documents=chunks, ...)]: the store built and
    the disk it was saved to. *)
Variable Chroma_from_documents : list Document -> Disk -> VectorDB * Disk.

Definition build_or_load_vectorstore (disk : Disk)
  : VectorDB * Disk * list Effect :=
  if path_exists disk && truthy_list (listdir disk) then
    (Chroma disk, disk, [GetEmbeddingModel; OpenChroma])
  else
    let docs := load_documents disk in
    let chunks := split_documents docs in
    let '(vectordb, disk') := Chroma_from_documents chunks disk in
    (vectordb, disk',
     [LoadDocuments; SplitDocuments; GetEmbeddingModel; ChromaFromDocuments]).

End Pipeline.

End Retriever.

(** ** [ui/interface.py] *)

Module Interface.
Import Agents.

(** An entry of [st.session_state.messages]. *)
Record Bubble : Type := {
  bubble_role : string;
  bubble_content : string
}.

(** [st.session_state], with the two keys the script sets. *)
Record SessionState : Type := {
  ui_messages : list Bubble;
  ui_agent_state : GraphState
}.

(** The state of a new browser session, and of one after "Clear Chat". *)
Definition initial_state : SessionState :=
  {| ui_messages := []; ui_agent_state := {| messages := [] |} |}.

(** [str(e)]: the [repr] of the key for a [KeyError] ([py_repr] is that
    builtin), the texts of the interpreter for the others. *)
Definition str_exn (py_repr : string -> string) (e : exn) : string :=
  match e with
  | KeyError key => py_repr key
  | IndexError => "list index out of range"
  | AttributeError type_name a => attribute_error_text type_name a
  | EOFError => "EOF when reading a line"
  end.

(** The prefix of the f-string in the [except] branch; the first four
    bytes are the UTF-8 encoding of U+1F6A8. *)
Definition error_prefix : string :=
  String (Ascii.ascii_of_nat 240) (String (Ascii.ascii_of_nat 159)
    (String (Ascii.ascii_of_nat 154) (String (Ascii.ascii_of_nat 168)
      " Sorry, I encountered an error: "))).

(** The body of [if prompt := st.chat_input(...)], for a prompt that was
    entered.  The user bubble is added before the [try]; the graph appends
    to the list held by the session state, so its appends stay there when a
    node raises.  [None]: the fuel did not suffice. *)
Definition submit (w : World) (fuel : nat) (py_repr : string -> string)
    (st : SessionState) (prompt : string) : option SessionState :=
  let bubbles :=
    ui_messages st ++ [{| bubble_role := "user"; bubble_content := prompt |}] in
  let run :=
    invoke w fuel
      {| messages := messages (ui_agent_state st) ++ [HumanMessage prompt] |} in
  let failed (e : exn) :=
    {| ui_messages :=
         bubbles ++ [{| bubble_role := "assistant";
                        bubble_content := error_prefix +:+ str_exn py_repr e |}];
       ui_agent_state := run_state run |} in
  match run_status run with
  | OutOfFuel => None
  | Crashed e => Some (failed e)
  | Done =>
      match last (messages (run_state run)) with
      | None => Some (failed IndexError)
      | Some latest_message =>
          Some {| ui_messages :=
                    bubbles ++ [{| bubble_role := "assistant";
                                   bubble_content := content_of latest_message |}];
                  ui_agent_state := run_state run |}
      end
  end.

(** What the user did before a rerun of the script. *)
Inductive Event : Type :=
| Prompt (prompt : option string)   (* the value of [st.chat_input(...)] *)
| ClearChat.                        (* the button of the sidebar *)

(** One rerun of the script.  A prompt that is [None] or empty is false
    for the [if]. *)
Definition rerun (w : World) (fuel : nat) (py_repr : string -> string)
    (st : SessionState) (ev : Event) : option SessionState :=
  match ev with
  | ClearChat => Some initial_state
  | Prompt None => Some st
  | Prompt (Some prompt) =>
      if truthy_str prompt then submit w fuel py_repr st prompt else Some st
  end.

(** The reruns of a browser session, one after the other. *)
Fixpoint reruns (w : World) (fuel : nat) (py_repr : string -> string)
    (st : SessionState) (evs : list Event) : option SessionState :=
  match evs with
  | [] => Some st
  | ev :: evs' =>
      match rerun w fuel py_repr st ev with
      | None => None
      | Some st' => reruns w fuel py_repr st' evs'
      end
  end.

(** The three numbers of "Chat Statistics". *)
Definition total_messages (st : SessionState) : nat := length (ui_messages st).

Definition user_messages (st : SessionState) : nat :=
  length (filter (fun m => bubble_role m = "user") (ui_messages st)).

Definition bot_messages (st : SessionState) : nat :=
  length (filter (fun m => bubble_role m = "assistant") (ui_messages st)).

End Interface.

(** ** [run.py] *)

Module ChatLoop.
Import Agents.

(** How the loop of the terminal ends. *)
Inductive Ending : Type :=
| Bye                   (* [sys.exit()] after an exit word *)
| Traceback (e : exn).  (* [input()] or the graph raised: nothing catches it *)

(** [query.lower() in ["exit", "quit"]]; [lower] is [str.lower]. *)
Definition is_exit (lower : string -> string) (query : string) : bool :=
  String.eqb (lower query) "exit" || String.eqb (lower query) "quit".

(** The [while True] loop over the lines typed, with the lines that
    [print] writes after the banner; when the lines are used up, [input()]
    raises [EOFError].  The conversation of a turn is the list the graph
    returned in the turn before.  [None]: the fuel did not suffice for a
    run of the graph. *)
Fixpoint chat_loop (w : World) (fuel : nat) (lower : string -> string)
    (conversation_messages : list Message) (inputs : list string)
  : option (list string * Ending) :=
  match inputs with
  | [] => Some ([], Traceback EOFError)
  | query :: rest =>
      if is_exit lower query then Some (["Bye!"], Bye)
      else
        let run :=
          invoke w fuel
            {| messages := conversation_messages ++ [HumanMessage query] |} in
        match run_status run with
        | OutOfFuel => None
        | Crashed e => Some ([], Traceback e)
        | Done =>
            match last (messages (run_state run)) with
            | None => Some ([], Traceback IndexError)
            | Some last_message =>
                match chat_loop w fuel lower (messages (run_state run)) rest with
                | None => None
                | Some (printed, ending) =>
                    Some (("Bot: " +:+ content_of last_message) :: printed, ending)
                end
            end
        end
  end.

End ChatLoop.

(** ** Vocabulary of the properties *)

Module Props.
Import Tools Agents Server.




(** A message that asks for a tool, and a conversation that holds one. *)
Definition requests_tool (m : Message) : Prop := tool_calls_of m ≠ [].

Definition holds_tool_call (msgs : list Message) : Prop :=
  Exists requests_tool msgs.

(** A conversation in which no message asks for a tool. *)
Definition free_of_tool_calls (msgs : list Message) : Prop :=
  Forall (fun m => tool_calls_of m = []) msgs.

(** What [call.name] raises on a tool call. *)
Definition no_name : exn := AttributeError "dict" "name".


(** The conversation and the log of [s'] continue those of [s]. *)
Definition appends_only (s s' : Session) : Prop :=
  messages (agent_state s) `prefix_of` messages (agent_state s')
  ∧ session_messages s `prefix_of` session_messages s'.

Definition is_AIMessage (m : Message) : bool :=
  match m with AIMessage _ _ => true | _ => false end.

(** A result of the model call from which [agent_node] takes no message:
    not a dict with ["messages"], or one whose last message is no
    [AIMessage]. *)
Definition unusable_reply (r : outcome InvokeValue) : Prop :=
  r = Returns ResultOther
  ∨ ∃ msgs m, r = Returns (ResultMessages msgs)
              ∧ last msgs = Some m ∧ is_AIMessage m = false.


(** No call of the last message waits for its result. *)
Definition nothing_pending (state : GraphState) : Prop :=
  match last (messages state) with
  | Some m => tool_calls_of m = []
  | None => True
  end.

(** The conversation a request continues: that of the session it names,
    if the name is not empty and the session exists, the empty one
    otherwise. *)
Definition conversation_before (chat_sessions : gmap string Session)
    (request : ChatRequest) : list Message :=
  match session_id request with
  | None => []
  | Some sid =>
      if truthy_str sid then
        match chat_sessions !! sid with
        | Some s => messages (agent_state s)
        | None => []
        end
      else []
  end.

(** The two entries a turn adds to the log of its session. *)
Definition user_entry (request : ChatRequest) (now : datetime) : ChatMessage :=
  {| role := "user"; content := message request; timestamp := now |}.

Definition assistant_entry (text : string) (now : datetime) : ChatMessage :=
  {| role := "assistant"; content := text; timestamp := now |}.

(** The run of the graph that serves a request in a session. *)
Definition turn_run (w : World) (fuel : nat) (session : Session)
    (request : ChatRequest) : Run :=
  invoke w fuel
    {| messages := messages (agent_state session)
                     ++ [HumanMessage (message request)] |}.

(** The session as a turn leaves it: after the update that follows the
    run of the graph, and when the graph raised. *)
Definition session_after_answer (session : Session) (request : ChatRequest)
    (now : datetime) (text : string) (final : GraphState) : Session :=
  {| session_messages :=
       session_messages session
         ++ [user_entry request now] ++ [assistant_entry text now];
     agent_state := final;
     created_at := created_at session;
     last_activity := now;
     message_count := S (message_count session) |}.

Definition session_after_crash (session : Session) (request : ChatRequest)
    (now : datetime) (final : GraphState) : Session :=
  {| session_messages := session_messages session ++ [user_entry request now];
     agent_state := final;
     created_at := created_at session;
     last_activity := last_activity session;
     message_count := message_count session |}.

End Props.

(** ** Concrete worlds and conversations *)

Module Examples.
Import Tools Agents Server.

Definition ask_pdf : ToolCall :=
  {| call_name := "pdf_search";
     call_args := [("query", "Manali places to visit")];
     call_id := "call_1" |}.

Definition ask_web : ToolCall :=
  {| call_name := "web_search";
     call_args := [("__arg1", "Manali weather")];
     call_id := "call_2" |}.

Definition ask_flights : ToolCall :=
  {| call_name := "flight_search";
     call_args := [("query", "Delhi to Manali")];
     call_id := "call_3" |}.

(** A model that asks for the documents and the web, and that answers a
    thank-you at once; the documents are there, the web search fails. *)
Definition travel_world : World :=
  {| py_str_dict := fun _ => "{}";
     retriever_get_relevant_documents :=
       fun _ => Returns ["Solang Valley"; "Hadimba Temple"];
     duckduckgo_run := fun _ => Raises "rate limit";
     agent_invoke := fun msgs =>
       match last msgs with
       | Some (HumanMessage text) =>
           if String.eqb text "Thanks!"
           then Returns (ResultMessages [AIMessage "You are welcome." []])
           else Returns (ResultMessages [AIMessage "" [ask_pdf; ask_web]])
       | Some (ToolMessage _ _) =>
           Returns (ResultMessages [AIMessage "Visit Solang Valley." []])
       | _ => Raises "no reply"
       end |}.

(** A model that answers at once. *)
Definition direct_world : World :=
  {| py_str_dict := fun _ => "{}";
     retriever_get_relevant_documents := fun _ => Returns [];
     duckduckgo_run := fun _ => Returns "";
     agent_invoke := fun _ =>
       Returns (ResultMessages [HumanMessage "Hi"; AIMessage "Hello!" []]) |}.

(** A model that cannot be reached. *)
Definition offline_world : World :=
  {| py_str_dict := fun _ => "{}";
     retriever_get_relevant_documents := fun _ => Returns [];
     duckduckgo_run := fun _ => Returns "";
     agent_invoke := fun _ => Raises "connection refused" |}.

(** A model that asks for a tool that does not exist. *)
Definition confused_world : World :=
  {| py_str_dict := fun _ => "{}";
     retriever_get_relevant_documents := fun _ => Returns [];
     duckduckgo_run := fun _ => Returns "";
     agent_invoke := fun _ =>
       Returns (ResultMessages [AIMessage "" [ask_flights]]) |}.


(** A model whose result is no dict. *)
Definition mute_world : World :=
  {| py_str_dict := fun _ => "{}";
     retriever_get_relevant_documents := fun _ => Returns [];
     duckduckgo_run := fun _ => Returns "";
     agent_invoke := fun _ => Returns ResultOther |}.

(** A model whose result holds no message. *)
Definition hollow_world : World :=
  {| py_str_dict := fun _ => "{}";
     retriever_get_relevant_documents := fun _ => Returns [];
     duckduckgo_run := fun _ => Returns "";
     agent_invoke := fun _ => Returns (ResultMessages []) |}.

(** A retriever that finds one page without text. *)
Definition blank_world : World :=
  {| py_str_dict := fun _ => "{}";
     retriever_get_relevant_documents := fun _ => Returns [""];
     duckduckgo_run := fun _ => Returns "";
     agent_invoke := fun _ => Returns ResultOther |}.

Definition question : GraphState :=
  {| messages := [HumanMessage "What places to visit in Manali?"] |}.

Definition asked_both : GraphState :=
  {| messages := messages question ++ [AIMessage "" [ask_pdf; ask_web]] |}.



(** A session after one turn that the model answered at once. *)
Definition first_turn : list Message :=
  [HumanMessage "What places to visit in Manali?";
   AIMessage "Visit Solang Valley." []].

Definition after_first_turn : Session :=
  {| session_messages :=
       [ {| role := "user"; content := "What places to visit in Manali?";
            timestamp := 0%Z |};
         {| role := "assistant"; content := "Visit Solang Valley.";
            timestamp := 0%Z |} ];
     agent_state := {| messages := first_turn |};
     created_at := 0%Z;
     last_activity := 0%Z;
     message_count := 1 |}.

Definition one_session : gmap string Session := {[ "s1" := after_first_turn ]}.

Definition thanks : ChatRequest :=
  {| message := "Thanks!"; session_id := Some "s1" |}.

(** A session after one turn in which the model asked for tools: the
    turn failed, the request of the model stayed in the conversation. *)
Definition after_failed_turn : Session :=
  {| session_messages :=
       [ {| role := "user"; content := "What places to visit in Manali?";
            timestamp := 0%Z |} ];
     agent_state := asked_both;
     created_at := 0%Z;
     last_activity := 0%Z;
     message_count := 0 |}.

Definition failed_session : gmap string Session :=
  {[ "s1" := after_failed_turn ]}.

(** One day in microseconds, and three sessions around that age. *)
Definition day : Z := 86400000000%Z.

Definition idle_since (t : Z) : Session :=
  {| session_messages := [];
     agent_state := {| messages := [] |};
     created_at := t;
     last_activity := t;
     message_count := 0 |}.

Definition three_sessions : gmap string Session :=
  {[ "old" := idle_since 0%Z; "edge" := idle_since 1%Z;
     "young" := idle_since 2%Z ]}.

(** A small disk: the PDF texts and, when it exists, the listing of the
    chroma directory, whose first entry is the database file and whose
    other entries are the stored chunks. *)
Record ToyDisk : Type := {
  pdfs : list string;
  chroma_dir : option (list string)
}.

Definition toy_exists (d : ToyDisk) : bool :=
  match chroma_dir d with Some _ => true | None => false end.

Definition toy_listdir (d : ToyDisk) : list string :=
  match chroma_dir d with Some files => files | None => [] end.

Definition toy_open (d : ToyDisk) : list string := tail (toy_listdir d).

Definition toy_from_documents (chunks : list string) (d : ToyDisk)
  : list string * ToyDisk :=
  (chunks, {| pdfs := pdfs d; chroma_dir := Some ("chroma.sqlite3" :: chunks) |}).

Definition toy_build : ToyDisk → list string * ToyDisk * list Retriever.Effect :=
  Retriever.build_or_load_vectorstore ToyDisk string (list string)
    toy_exists toy_listdir pdfs (fun docs => docs) toy_open toy_from_documents.

Definition fresh_disk : ToyDisk :=
  {| pdfs := ["Manali guide"; "Goa guide"]; chroma_dir := None |}.

Definition populated_disk : ToyDisk :=
  {| pdfs := ["Manali guide"; "Goa guide"];
     chroma_dir := Some ["chroma.sqlite3"; "Manali guide"] |}.


Definition flights : ChatRequest :=
  {| message := "Any flights?"; session_id := Some "s1" |}.

Definition stranger : ChatRequest :=
  {| message := "Thanks!"; session_id := Some "nobody" |}.

(** Lower case for the letters of the exit words, enough for the
    examples. *)
Definition toy_lower (s : string) : string :=
  if String.eqb s "EXIT" then "exit"
  else if String.eqb s "Quit" then "quit"
  else s.

End Examples.

(** * Properties of the agent loop ([app/agents.py]) *)

Module AgentLoop.
Import Tools Agents Props Examples.

(** ** The static tool mapping *)

Lemma tool_map_pdf_search w :
  tool_map w !! "pdf_search" = Some (pdf_search_tool w).
Proof.
  unfold tool_map, tools; simpl.
  rewrite lookup_insert_ne by discriminate.
  apply lookup_insert_eq.
Qed.



(** ** The router after a message of the model *)

Lemma router_final msgs text :
  router {| messages := msgs ++ [AIMessage text []] |} = Return RouteEnd.
Proof.
  unfold router; simpl. rewrite last_snoc; simpl.
  destruct (truthy_str text); reflexivity.
Qed.

Lemma router_tools msgs text call calls :
  router {| messages := msgs ++ [AIMessage text (call :: calls)] |}
  = Return RouteTools.
Proof. unfold router; simpl. rewrite last_snoc. reflexivity. Qed.

Lemma agent_node_reply w state result_messages text calls :
  agent_invoke w (messages state) = Returns (ResultMessages result_messages) →
  last result_messages = Some (AIMessage text calls) →
  agent_node w state
  = {| messages := messages state ++ [AIMessage text calls] |}.
Proof. intros Hinv Hlast. unfold agent_node. rewrite Hinv, Hlast. reflexivity. Qed.

(** ** C1 *)

(** C1. When the model's response carries no tool call and a non-empty
    text, the loop stops after exactly one model invocation, the tool
    step never runs, the response is the last message of the conversation
    and its text is what the caller reads. *)
Theorem tool_free_response_ends_loop w state result_messages text fuel :
  agent_invoke w (messages state) = Returns (ResultMessages result_messages) →
  last result_messages = Some (AIMessage text []) →
  text ≠ "" →
  invoke w (S fuel) state
  = {| run_state := {| messages := messages state ++ [AIMessage text []] |};
       run_status := Done;
       run_trace := [NodeAgent] |}
  ∧ answer (run_state (invoke w (S fuel) state)) = Some text.
Proof.
  intros Hinv Hlast _.
  assert (Hrun : invoke w (S fuel) state
                 = {| run_state :=
                        {| messages := messages state ++ [AIMessage text []] |};
                      run_status := Done;
                      run_trace := [NodeAgent] |}).
  { unfold invoke; simpl.
    rewrite (agent_node_reply _ _ _ _ _ Hinv Hlast), router_final.
    reflexivity. }
  split; [exact Hrun|].
  rewrite Hrun. unfold answer; simpl. rewrite last_snoc. reflexivity.
Qed.

Lemma tool_free_response_ends_loop_witness :
  invoke direct_world 3 question
  = {| run_state :=
         {| messages := messages question ++ [AIMessage "Hello!" []] |};
       run_status := Done;
       run_trace := [NodeAgent] |}
  ∧ answer (run_state (invoke direct_world 3 question)) = Some "Hello!".
Proof.
  apply (tool_free_response_ends_loop direct_world question
           [HumanMessage "Hi"; AIMessage "Hello!" []] "Hello!" 2);
    [reflexivity | reflexivity | discriminate].
Defined.

(** ** C3 *)

(** C3. When the model invocation raises, the loop appends the one
    apology message and stops at once: the run ends in [Done], not in
    [Crashed], after the single visit of the agent node. *)
Theorem model_failure_is_absorbed w state reason fuel :
  agent_invoke w (messages state) = Raises reason →
  invoke w (S fuel) state
  = {| run_state :=
         {| messages :=
              messages state
              ++ [AIMessage "Sorry, I encountered an error. Please try again." []] |};
       run_status := Done;
       run_trace := [NodeAgent] |}.
Proof.
  intros Hinv. unfold invoke; simpl.
  unfold agent_node. rewrite Hinv. unfold apology.
  rewrite router_final. reflexivity.
Qed.

Lemma model_failure_is_absorbed_witness :
  invoke offline_world 5 question
  = {| run_state :=
         {| messages :=
              messages question
              ++ [AIMessage "Sorry, I encountered an error. Please try again." []] |};
       run_status := Done;
       run_trace := [NodeAgent] |}.
Proof.
  apply (model_failure_is_absorbed offline_world question "connection refused" 4).
  reflexivity.
Defined.

(** ** The tool step on the dicts of the model *)

(** The first instruction of the loop reads [call.name] from a dict. *)
Lemma for_calls_cons w call rest tool_outputs :
  for_calls w (call :: rest) tool_outputs = Raise no_name.
Proof. reflexivity. Qed.

Lemma tool_node_request w state m :
  last (messages state) = Some m →
  requests_tool m →
  tool_node w state = Raise no_name.
Proof.
  intros Hlast Hcalls. unfold tool_node. rewrite Hlast.
  destruct (tool_calls_of m) as [|call calls] eqn:Htcs; [contradiction|].
  reflexivity.
Qed.

Lemma tool_node_no_request w state m :
  last (messages state) = Some m →
  tool_calls_of m = [] →
  tool_node w state = Return {| messages := messages state ++ [] |}.
Proof. intros Hlast Hnone. unfold tool_node. rewrite Hlast, Hnone. reflexivity. Qed.

(** What the tool step returns, it returns without a result in it. *)
Lemma tool_node_Return w state state' :
  tool_node w state = Return state' →
  state' = {| messages := messages state ++ [] |}
  ∧ ∃ m, last (messages state) = Some m ∧ tool_calls_of m = [].
Proof.
  unfold tool_node. destruct (last (messages state)) as [m|]; [|discriminate].
  destruct (tool_calls_of m) as [|call calls] eqn:Htcs; simpl; [|discriminate].
  intros [= <-]. split; [reflexivity|]. exists m. split; [reflexivity | exact Htcs].
Qed.

(** A request of the model for tools ends the run in the tool step. *)
Lemma invoke_request w prior text call calls fuel :
  agent_node w prior
  = {| messages := messages prior ++ [AIMessage text (call :: calls)] |} →
  invoke w (S fuel) prior
  = {| run_state :=
         {| messages := messages prior ++ [AIMessage text (call :: calls)] |};
       run_status := Crashed no_name;
       run_trace := [NodeAgent; NodeTools] |}.
Proof.
  intros Hagent. unfold invoke; simpl. rewrite Hagent, router_tools.
  rewrite (tool_node_request w
             {| messages := messages prior ++ [AIMessage text (call :: calls)] |}
             (AIMessage text (call :: calls)) (last_snoc _ _));
    [reflexivity | discriminate].
Qed.

(** ** C2 *)


(** ** C4 *)


(** ** C5 *)


(** ** C6 *)


End AgentLoop.

(** * Properties of the session manager ([api/server.py]) *)

Module Sessions.
Import Tools Agents Server Props Examples.

(** ** The sweep *)

Lemma lookup_foldl_delete (m : gmap string Session) (keys : list string) sid :
  foldl (fun m k => delete k m) m keys !! sid
  = if decide (sid ∈ keys) then None else m !! sid.
Proof.
  revert m. induction keys as [|k keys IH]; intros m; simpl.
  - destruct (decide (sid ∈ [])) as [Hin | _]; [inversion Hin | reflexivity].
  - rewrite IH.
    destruct (decide (sid ∈ keys)) as [Hin | Hnin];
      destruct (decide (sid ∈ k :: keys)) as [Hin' | Hnin'].
    + reflexivity.
    + exfalso. apply Hnin'. right. exact Hin.
    + apply elem_of_cons in Hin' as [-> | Hin']; [|contradiction].
      apply lookup_delete_eq.
    + apply lookup_delete_ne. intros ->. apply Hnin'. left.
Qed.

Lemma elem_of_sessions_to_delete (m : gmap string Session) now sid :
  sid ∈ (filter (fun p => older_than_24h now p.2 = true) (map_to_list m)).*1
  ↔ ∃ s, m !! sid = Some s ∧ older_than_24h now s = true.
Proof.
  rewrite list_elem_of_fmap. split.
  - intros ([k s] & -> & Hin). apply list_elem_of_filter in Hin as [Hold Hin].
    apply elem_of_map_to_list in Hin. exists s. split; assumption.
  - intros (s & Hlook & Hold). exists (sid, s). split; [reflexivity|].
    apply list_elem_of_filter. split; [exact Hold|].
    apply elem_of_map_to_list. exact Hlook.
Qed.

Lemma cleanup_lookup chat_sessions now sid :
  (cleanup_old_sessions chat_sessions now).1 !! sid
  = match chat_sessions !! sid with
    | Some s => if older_than_24h now s then None else Some s
    | None => None
    end.
Proof.
  unfold cleanup_old_sessions; simpl. rewrite lookup_foldl_delete.
  destruct (decide _) as [Hin | Hin].
  - apply elem_of_sessions_to_delete in Hin as (s & -> & ->). reflexivity.
  - destruct (chat_sessions !! sid) as [s|] eqn:Hlook; [|reflexivity].
    destruct (older_than_24h now s) eqn:Hold; [|reflexivity].
    exfalso. apply Hin. apply elem_of_sessions_to_delete. eauto.
Qed.

(** ** C10 *)

(** C10. The sweep removes a session exactly when its last activity lies
    more than 24 hours before the current time: older sessions go,
    younger ones stay as they are, a session of exactly 24 hours stays
    (the bound is exclusive), and no identifier appears that was not
    there. *)
Theorem sweep_removes_exactly_the_old chat_sessions now sid s :
  chat_sessions !! sid = Some s →
  ((24 * 3600 * 1000000 < now - last_activity s)%Z →
     (cleanup_old_sessions chat_sessions now).1 !! sid = None)
  ∧ ((now - last_activity s < 24 * 3600 * 1000000)%Z →
     (cleanup_old_sessions chat_sessions now).1 !! sid = Some s)
  ∧ ((now - last_activity s = 24 * 3600 * 1000000)%Z →
     (cleanup_old_sessions chat_sessions now).1 !! sid = Some s)
  ∧ (∀ sid', chat_sessions !! sid' = None →
       (cleanup_old_sessions chat_sessions now).1 !! sid' = None).
Proof.
  intros Hlook. repeat split.
  - intros Hold. rewrite cleanup_lookup, Hlook. unfold older_than_24h.
    destruct (Z.ltb_spec (24 * 3600 * 1000000) (now - last_activity s));
      [reflexivity | lia].
  - intros Hyoung. rewrite cleanup_lookup, Hlook. unfold older_than_24h.
    destruct (Z.ltb_spec (24 * 3600 * 1000000) (now - last_activity s));
      [lia | reflexivity].
  - intros Hedge. rewrite cleanup_lookup, Hlook. unfold older_than_24h.
    destruct (Z.ltb_spec (24 * 3600 * 1000000) (now - last_activity s));
      [lia | reflexivity].
  - intros sid' Hnone. rewrite cleanup_lookup, Hnone. reflexivity.
Qed.

Lemma sweep_removes_exactly_the_old_witness :
  (cleanup_old_sessions three_sessions (day + 1)%Z).1 !! "old" = None
  ∧ (cleanup_old_sessions three_sessions (day + 1)%Z).1 !! "edge"
    = Some (idle_since 1%Z)
  ∧ (cleanup_old_sessions three_sessions (day + 1)%Z).1 !! "young"
    = Some (idle_since 2%Z).
Proof.
  destruct (sweep_removes_exactly_the_old three_sessions (day + 1)%Z "old"
              (idle_since 0%Z) eq_refl) as (Hold & _).
  destruct (sweep_removes_exactly_the_old three_sessions (day + 1)%Z "edge"
              (idle_since 1%Z) eq_refl) as (_ & _ & Hedge & _).
  destruct (sweep_removes_exactly_the_old three_sessions (day + 1)%Z "young"
              (idle_since 2%Z) eq_refl) as (_ & Hyoung & _).
  split; [apply Hold; reflexivity|].
  split; [apply Hedge; reflexivity | apply Hyoung; reflexivity].
Defined.

(** ** The conversation only grows *)

Lemma agent_node_prefix w state :
  messages state `prefix_of` messages (agent_node w state).
Proof.
  unfold agent_node.
  destruct (agent_invoke w (messages state)) as [[result_messages|]|reason];
    simpl; try (apply prefix_app_r; reflexivity); try reflexivity.
  destruct (last result_messages) as [[c|c tcs|i c]|]; simpl;
    try (apply prefix_app_r; reflexivity); reflexivity.
Qed.

Lemma tool_node_prefix w state state' :
  tool_node w state = Return state' →
  messages state `prefix_of` messages state'.
Proof.
  unfold tool_node. destruct (last (messages state)); [|discriminate].
  destruct (for_calls w _ []); [|discriminate].
  intros [= <-]; simpl. apply prefix_app_r. reflexivity.
Qed.

Lemma run_graph_prefix w fuel :
  ∀ state trace,
    messages state `prefix_of` messages (run_state (run_graph w fuel state trace)).
Proof.
  induction fuel as [|fuel IH]; intros state trace; simpl; [reflexivity|].
  pose proof (agent_node_prefix w state) as Hagent.
  destruct (router (agent_node w state)) as [[|]|e]; simpl; try exact Hagent.
  destruct (tool_node w (agent_node w state)) as [state2|e] eqn:Htools;
    simpl; [|exact Hagent].
  etrans; [exact Hagent|]. etrans; [exact (tool_node_prefix _ _ _ Htools)|].
  apply IH.
Qed.

(** ** The session that a request resolves to *)

Lemma get_or_create_session_spec chat_sessions request_id new_id now sid m1 :
  get_or_create_session chat_sessions request_id new_id now = (sid, m1) →
  (∃ s, chat_sessions !! sid = Some s
        ∧ request_id = Some sid
        ∧ m1 = <[sid := {| session_messages := session_messages s;
                           agent_state := agent_state s;
                           created_at := created_at s;
                           last_activity := now;
                           message_count := message_count s |}]> chat_sessions)
  ∨ (sid = new_id ∧ m1 = <[new_id := new_session now]> chat_sessions).
Proof.
  unfold get_or_create_session. destruct request_id as [rid|].
  - destruct (truthy_str rid).
    + destruct (chat_sessions !! rid) as [s|] eqn:Hlook.
      * intros [= <- <-]. left. exists s. repeat split; assumption.
      * intros [= <- <-]. right. split; reflexivity.
    + intros [= <- <-]. right. split; reflexivity.
  - intros [= <- <-]. right. split; reflexivity.
Qed.

Lemma get_or_create_session_lookup chat_sessions request_id new_id now sid m1 :
  get_or_create_session chat_sessions request_id new_id now = (sid, m1) →
  is_Some (m1 !! sid).
Proof.
  intros Hg. apply get_or_create_session_spec in Hg
    as [(s & _ & _ & ->) | [-> ->]]; rewrite lookup_insert_eq; eauto.
Qed.

(** What a request did to the map, whatever its result. *)
Lemma chat_inv w fuel chat_sessions request new_id now r m' :
  chat w fuel chat_sessions request new_id now = Some (r, m') →
  ∃ sid m1 session s',
    get_or_create_session chat_sessions (session_id request) new_id now
    = (sid, m1)
    ∧ m1 !! sid = Some session
    ∧ m' = <[sid := s']> m1
    ∧ agent_state s'
      = run_state (invoke w fuel
                     {| messages := messages (agent_state session)
                                      ++ [HumanMessage (message request)] |})
    ∧ session_messages session `prefix_of` session_messages s'.
Proof.
  unfold chat.
  destruct (get_or_create_session _ _ _ _) as [sid m1] eqn:Hg.
  destruct (get_or_create_session_lookup _ _ _ _ _ _ Hg) as [session Hsession].
  rewrite Hsession.
  set (run := invoke w fuel _).
  destruct (run_status run) as [|e|]; [| |discriminate].
  - destruct (last (messages (run_state run))) as [latest|] eqn:Hlast.
    + destruct (determine_sources_used (run_state run)) as [sources|e];
        intros [= <- <-]; eexists sid, m1, session, _;
        (split; [reflexivity|]); (split; [exact Hsession|]);
        (split; [reflexivity|]); (split; [reflexivity|]);
        simpl; apply prefix_app_r; reflexivity.
    + intros [= <- <-]. eexists sid, m1, session, _.
      split; [reflexivity|]. split; [exact Hsession|].
      split; [reflexivity|]. split; [reflexivity|].
      simpl; apply prefix_app_r; reflexivity.
  - intros [= <- <-]. eexists sid, m1, session, _.
    split; [reflexivity|]. split; [exact Hsession|].
    split; [reflexivity|]. split; [reflexivity|].
    simpl; apply prefix_app_r; reflexivity.
Qed.

Lemma chat_appends w fuel chat_sessions request new_id now r m' sid s :
  chat_sessions !! new_id = None →
  chat w fuel chat_sessions request new_id now = Some (r, m') →
  chat_sessions !! sid = Some s →
  ∃ s', m' !! sid = Some s' ∧ appends_only s s'.
Proof.
  intros Hfresh Hchat Hs.
  apply chat_inv in Hchat
    as (sid0 & m1 & session & s' & Hg & Hsession & -> & Hstate & Hlog).
  destruct (decide (sid0 = sid)) as [-> | Hne].
  - exists s'. rewrite lookup_insert_eq. split; [reflexivity|].
    assert (Hsame : agent_state session = agent_state s
                    ∧ session_messages session = session_messages s).
    { apply get_or_create_session_spec in Hg
        as [(s0 & Hs0 & _ & ->) | [-> ->]].
      - rewrite lookup_insert_eq in Hsession. injection Hsession as <-.
        rewrite Hs in Hs0. injection Hs0 as <-. split; reflexivity.
      - rewrite Hfresh in Hs. discriminate. }
    destruct Hsame as [Hst Hsm]. split.
    + rewrite Hstate, Hst. unfold invoke.
      etrans; [|apply run_graph_prefix]. simpl.
      apply prefix_app_r. reflexivity.
    + rewrite <- Hsm. exact Hlog.
  - exists s. rewrite lookup_insert_ne by exact Hne.
    split; [|split; reflexivity].
    apply get_or_create_session_spec in Hg
      as [(s0 & _ & _ & ->) | [-> ->]];
      rewrite lookup_insert_ne by exact Hne; exact Hs.
Qed.

(** ** What [determine_sources_used] does *)

Lemma sources_of_calls_cons tool_call rest sources :
  sources_of_calls (tool_call :: rest) sources = Raise no_name.
Proof. reflexivity. Qed.

Lemma collect_sources_free msgs sources :
  free_of_tool_calls msgs → collect_sources msgs sources = Return sources.
Proof.
  induction 1 as [|m msgs Hm _ IH]; simpl; [reflexivity|].
  rewrite Hm; simpl. exact IH.
Qed.

Lemma collect_sources_request msgs sources :
  holds_tool_call msgs → collect_sources msgs sources = Raise no_name.
Proof.
  intros Hex. induction msgs as [|m msgs IH]; [inversion Hex|]; simpl.
  destruct (tool_calls_of m) as [|call calls] eqn:Htcs; simpl.
  - apply IH. inversion Hex as [? ? Hm | ? ? Hrest]; subst; [|exact Hrest].
    contradiction.
  - reflexivity.
Qed.

Lemma free_or_holds msgs : free_of_tool_calls msgs ∨ holds_tool_call msgs.
Proof.
  induction msgs as [|m msgs [IH | IH]].
  - left. constructor.
  - destruct (tool_calls_of m) as [|call calls] eqn:Htcs.
    + left. constructor; assumption.
    + right. left. unfold requests_tool. rewrite Htcs. discriminate.
  - right. right. exact IH.
Qed.

Lemma free_not_holds msgs : free_of_tool_calls msgs → ¬ holds_tool_call msgs.
Proof.
  intros Hfree Hex. apply Exists_exists in Hex as (m & Hin & Hm).
  apply Hm. exact (proj1 (Forall_forall _ _) Hfree m Hin).
Qed.

(** The sources are determined for a conversation without tool calls
    only, and then there are none. *)
Lemma determine_sources_used_Return state sources :
  determine_sources_used state = Return sources →
  sources = [] ∧ free_of_tool_calls (messages state).
Proof.
  unfold determine_sources_used. intros Hret.
  destruct (free_or_holds (messages state)) as [Hfree | Hex].
  - rewrite (collect_sources_free _ _ Hfree) in Hret. injection Hret as <-.
    split; [|exact Hfree]. reflexivity.
  - rewrite (collect_sources_request _ _ Hex) in Hret. discriminate.
Qed.

Lemma determine_sources_used_Raise state e :
  determine_sources_used state = Raise e →
  e = no_name ∧ holds_tool_call (messages state).
Proof.
  unfold determine_sources_used. intros Hraise.
  destruct (free_or_holds (messages state)) as [Hfree | Hex].
  - rewrite (collect_sources_free _ _ Hfree) in Hraise. discriminate.
  - rewrite (collect_sources_request _ _ Hex) in Hraise. injection Hraise as <-.
    split; [reflexivity | exact Hex].
Qed.

(** ** C7 *)


(** ** C8 *)

(** C8, as stated, fails: clearing a session leaves it with an empty
    conversation, of which the earlier one is no prefix. *)
Lemma clear_session_drops_messages :
  one_session !! "s1" = Some after_first_turn
  ∧ ∃ s', (clear_session one_session "s1").2 !! "s1" = Some s'
          ∧ messages (agent_state s') = []
          ∧ ¬ messages (agent_state after_first_turn)
              `prefix_of` messages (agent_state s').
Proof.
  split; [reflexivity|]. eexists. split; [vm_compute; reflexivity|].
  split; [reflexivity|]. intros [k Hk]. discriminate Hk.
Qed.

(** C8, amended. A chat turn, whatever its outcome, only appends to the
    conversation and to the log of every session that was there before
    it, and so does each node of the agent loop; deleting a session and
    sweeping leave the sessions that remain as they were; clearing a
    session leaves the other sessions as they were and empties the
    conversation and the log of the cleared one. *)
Theorem sessions_grow_until_cleared :
  (∀ w fuel chat_sessions request new_id now r m' sid s,
     chat_sessions !! new_id = None →
     chat w fuel chat_sessions request new_id now = Some (r, m') →
     chat_sessions !! sid = Some s →
     ∃ s', m' !! sid = Some s' ∧ appends_only s s')
  ∧ (∀ w state, messages state `prefix_of` messages (agent_node w state))
  ∧ (∀ w state state',
       tool_node w state = Return state' →
       messages state `prefix_of` messages state')
  ∧ (∀ w fuel state,
       messages state `prefix_of` messages (run_state (invoke w fuel state)))
  ∧ (∀ chat_sessions sid0 sid s',
       (delete_session chat_sessions sid0).2 !! sid = Some s' →
       chat_sessions !! sid = Some s')
  ∧ (∀ chat_sessions now sid s',
       (cleanup_old_sessions chat_sessions now).1 !! sid = Some s' →
       chat_sessions !! sid = Some s')
  ∧ (∀ chat_sessions sid0 sid,
       sid ≠ sid0 →
       (clear_session chat_sessions sid0).2 !! sid = chat_sessions !! sid)
  ∧ (∀ chat_sessions sid s,
       chat_sessions !! sid = Some s →
       ∃ s', (clear_session chat_sessions sid).2 !! sid = Some s'
             ∧ messages (agent_state s') = []
             ∧ session_messages s' = []).
Proof.
  split; [exact chat_appends|].
  split; [exact agent_node_prefix|].
  split; [exact tool_node_prefix|].
  split; [intros w fuel state; apply run_graph_prefix|].
  split.
  { intros m sid0 sid s'. unfold delete_session.
    destruct (m !! sid0); simpl; [|trivial].
    intros Hlook. apply lookup_delete_Some in Hlook as [_ Hlook]. exact Hlook. }
  split.
  { intros m now sid s'. rewrite cleanup_lookup.
    destruct (m !! sid) as [s|]; [|discriminate].
    destruct (older_than_24h now s); [discriminate | trivial]. }
  split.
  { intros m sid0 sid Hne. unfold clear_session.
    destruct (m !! sid0); simpl; [|reflexivity].
    apply lookup_insert_ne. congruence. }
  intros m sid s Hs. unfold clear_session. rewrite Hs; simpl.
  eexists. rewrite lookup_insert_eq. repeat split.
Qed.

Lemma sessions_grow_until_cleared_witness :
  ∃ r m',
    chat travel_world 5 one_session thanks "s2" 1000%Z = Some (r, m')
    ∧ ∃ s', m' !! "s1" = Some s' ∧ appends_only after_first_turn s'.
Proof.
  eexists _, _. split; [vm_compute; reflexivity|].
  destruct sessions_grow_until_cleared as (Hchat & _).
  eapply (Hchat travel_world 5 one_session thanks "s2" 1000%Z);
    vm_compute; reflexivity.
Defined.

End Sessions.

(** * Properties of the ingestion pipeline ([app/retriever.py]) *)

Module Ingestion.
Import Retriever Examples.

Section Pipeline.
Variables Disk Document VectorDB : Type.
Variable path_exists : Disk → bool.
Variable listdir : Disk → list string.
Variable load_documents : Disk → list Document.
Variable split_documents : list Document → list Document.
Variable Chroma : Disk → VectorDB.
Variable Chroma_from_documents : list Document → Disk → VectorDB * Disk.

Local Abbreviation build :=
  (build_or_load_vectorstore Disk Document VectorDB path_exists listdir
     load_documents split_documents Chroma Chroma_from_documents).

Lemma build_populated disk :
  path_exists disk = true → listdir disk ≠ [] →
  build disk = (Chroma disk, disk, [GetEmbeddingModel; OpenChroma]).
Proof.
  intros Hexists Hfiles. unfold build_or_load_vectorstore.
  rewrite Hexists. destruct (listdir disk); [contradiction | reflexivity].
Qed.

(** C9. When the directory of the index exists and is not empty, the
    pipeline loads, splits and embeds nothing: it opens the store found
    on the disk and leaves the disk as it is.  Hence a second run
    finds the same disk and gives the same store as the first. *)
Theorem populated_index_is_reopened disk :
  path_exists disk = true →
  listdir disk ≠ [] →
  build disk = (Chroma disk, disk, [GetEmbeddingModel; OpenChroma])
  ∧ Forall (fun e => ingests e = false) (build disk).2
  ∧ build (build disk).1.2 = build disk.
Proof.
  intros Hexists Hfiles.
  pose proof (build_populated disk Hexists Hfiles) as Hbuild.
  split; [exact Hbuild|]. rewrite Hbuild; simpl. split.
  - repeat constructor.
  - exact Hbuild.
Qed.

End Pipeline.

Lemma populated_index_is_reopened_witness :
  toy_build populated_disk
  = (["Manali guide"], populated_disk, [GetEmbeddingModel; OpenChroma])
  ∧ Forall (fun e => ingests e = false) (toy_build populated_disk).2
  ∧ toy_build (toy_build populated_disk).1.2 = toy_build populated_disk.
Proof.
  apply (populated_index_is_reopened ToyDisk string (list string)
           toy_exists toy_listdir pdfs (fun docs => docs) toy_open
           toy_from_documents populated_disk).
  - reflexivity.
  - discriminate.
Defined.

(** On a disk without index the pipeline does ingest, and the run after
    it finds the index. *)
Example first_run_builds :
  toy_build fresh_disk
  = (["Manali guide"; "Goa guide"],
     {| pdfs := ["Manali guide"; "Goa guide"];
        chroma_dir := Some ["chroma.sqlite3"; "Manali guide"; "Goa guide"] |},
     [LoadDocuments; SplitDocuments; GetEmbeddingModel; ChromaFromDocuments])
  ∧ (toy_build (toy_build fresh_disk).1.2).1.1 = (toy_build fresh_disk).1.1.
Proof. split; reflexivity. Qed.

End Ingestion.

(** * Further properties of the graph ([app/agents.py]) *)

Module GraphRuns.
Import Tools Agents Props Examples.

(** ** The trace given at the start is only carried along *)

Lemma run_graph_trace w fuel :
  ∀ state trace,
    run_graph w fuel state trace
    = {| run_state := run_state (invoke w fuel state);
         run_status := run_status (invoke w fuel state);
         run_trace := trace ++ run_trace (invoke w fuel state) |}.
Proof.
  unfold invoke. induction fuel as [|fuel IH]; intros state trace; simpl.
  - rewrite app_nil_r. reflexivity.
  - destruct (router (agent_node w state)) as [[|]|e]; simpl; try reflexivity.
    destruct (tool_node w (agent_node w state)) as [state2|e]; simpl.
    + rewrite (IH state2 ((trace ++ [NodeAgent]) ++ [NodeTools])).
      rewrite (IH state2 [NodeAgent; NodeTools]). simpl.
      rewrite <- !app_assoc. reflexivity.
    + rewrite <- app_assoc. reflexivity.
Qed.

(** One round of the graph, by the choice of the router. *)
Lemma invoke_S w fuel state :
  invoke w (S fuel) state
  = match router (agent_node w state) with
    | Raise e =>
        {| run_state := agent_node w state; run_status := Crashed e;
           run_trace := [NodeAgent] |}
    | Return RouteEnd =>
        {| run_state := agent_node w state; run_status := Done;
           run_trace := [NodeAgent] |}
    | Return RouteTools =>
        match tool_node w (agent_node w state) with
        | Raise e =>
            {| run_state := agent_node w state; run_status := Crashed e;
               run_trace := [NodeAgent; NodeTools] |}
        | Return state2 =>
            {| run_state := run_state (invoke w fuel state2);
               run_status := run_status (invoke w fuel state2);
               run_trace := [NodeAgent; NodeTools] ++ run_trace (invoke w fuel state2) |}
        end
    end.
Proof.
  unfold invoke at 1; simpl.
  destruct (router (agent_node w state)) as [[|]|e]; try reflexivity.
  destruct (tool_node w (agent_node w state)) as [state2|e]; [|reflexivity].
  apply run_graph_trace.
Qed.

(** ** What the router decides *)

Lemma router_Raise state e :
  router state = Raise e → messages state = [] ∧ e = IndexError.
Proof.
  unfold router. destruct (last (messages state)) as [m|] eqn:Hlast.
  - destruct m as [c|c tcs|i c]; try discriminate.
    destruct (truthy_list tcs); [discriminate|].
    destruct (truthy_str c); discriminate.
  - intros [= <-]. apply last_None in Hlast. split; [exact Hlast | reflexivity].
Qed.

Lemma router_End state :
  router state = Return RouteEnd →
  ∃ m, last (messages state) = Some m ∧ tool_calls_of m = [].
Proof.
  unfold router. destruct (last (messages state)) as [m|]; [|discriminate].
  intros Hr. exists m. split; [reflexivity|].
  destruct m as [c|c tcs|i c]; try reflexivity.
  destruct tcs; [reflexivity | discriminate].
Qed.

Lemma prefix_not_nil {A} (l k : list A) : l ≠ [] → l `prefix_of` k → k ≠ [].
Proof. intros Hne [t ->]. destruct l; [contradiction | discriminate]. Qed.

Lemma router_Tools state :
  router state = Return RouteTools →
  ∃ c call calls, last (messages state) = Some (AIMessage c (call :: calls)).
Proof.
  unfold router. destruct (last (messages state)) as [[c|c tcs|i c]|];
    try discriminate.
  destruct tcs as [|call calls]; simpl.
  - destruct (truthy_str c); discriminate.
  - intros _. exists c, call, calls. reflexivity.
Qed.

(** The tool step never gives the run back to the agent: the first round
    is the only one. *)
Lemma invoke_first_round w fuel state :
  invoke w (S fuel) state
  = match router (agent_node w state) with
    | Raise e =>
        {| run_state := agent_node w state; run_status := Crashed e;
           run_trace := [NodeAgent] |}
    | Return RouteEnd =>
        {| run_state := agent_node w state; run_status := Done;
           run_trace := [NodeAgent] |}
    | Return RouteTools =>
        {| run_state := agent_node w state; run_status := Crashed no_name;
           run_trace := [NodeAgent; NodeTools] |}
    end.
Proof.
  rewrite invoke_S.
  destruct (router (agent_node w state)) as [[|]|e] eqn:Hrouter; try reflexivity.
  apply router_Tools in Hrouter as (c & call & calls & Hlast).
  rewrite (AgentLoop.tool_node_request w _ _ Hlast); [reflexivity | discriminate].
Qed.

(** A run that starts on a conversation with a message in it is brought
    down by a request for tools only. *)
Lemma run_crash_cause w fuel state e :
  messages state ≠ [] →
  run_status (invoke w fuel state) = Crashed e →
  e = no_name
  ∧ run_trace (invoke w fuel state) = [NodeAgent; NodeTools]
  ∧ ∃ m, last (messages (run_state (invoke w fuel state))) = Some m
         ∧ requests_tool m.
Proof.
  intros Hne. destruct fuel as [|fuel]; [discriminate|].
  rewrite invoke_first_round.
  destruct (router (agent_node w state)) as [[|]|e'] eqn:Hrouter; simpl.
  - intros [= <-]. split; [reflexivity|]. split; [reflexivity|].
    apply router_Tools in Hrouter as (c & call & calls & Hlast).
    exists (AIMessage c (call :: calls)). split; [exact Hlast | discriminate].
  - discriminate.
  - apply router_Raise in Hrouter as [Hnil _].
    exfalso. exact (prefix_not_nil _ _ Hne (Sessions.agent_node_prefix w state) Hnil).
Qed.

(** A run that is [Done] went agent, tools, agent, ..., agent, and its last
    message asks for no tool. *)
Lemma run_done_shape w fuel :
  ∀ state,
    run_status (invoke w fuel state) = Done →
    ∃ rounds m,
      rounds < fuel
      ∧ run_trace (invoke w fuel state)
        = concat (replicate rounds [NodeAgent; NodeTools]) ++ [NodeAgent]
      ∧ last (messages (run_state (invoke w fuel state))) = Some m
      ∧ tool_calls_of m = [].
Proof.
  induction fuel as [|fuel IH]; intros state; [discriminate|].
  rewrite invoke_S.
  destruct (router (agent_node w state)) as [[|]|e'] eqn:Hrouter; simpl.
  - destruct (tool_node w (agent_node w state)) as [state2|e'] eqn:Htools; simpl;
      [|discriminate].
    intros Hdone. destruct (IH _ Hdone) as (rounds & m & Hlt & Htrace & Hlast & Hno).
    exists (S rounds), m. split; [lia|]. split; [|split; assumption].
    rewrite Htrace. reflexivity.
  - intros _. apply router_End in Hrouter as (m & Hlast & Hno).
    exists 0, m. split; [lia|]. split; [reflexivity|]. split; assumption.
  - discriminate.
Qed.



(** ** The messages a run appends *)



(** ** How a run ends *)



(** The graph never gets through a round of tools.  On a conversation
    that is not empty, every run is over after its first round, whatever
    fuel it has: either the agent, then the end; or, exactly when the
    message the model left asks for a tool, the agent, then the tool step,
    which raises the [AttributeError] of [call.name].  It never raises
    [IndexError] and never goes back to the agent. *)
Theorem run_ends_in_first_round w fuel state :
  messages state ≠ [] →
  invoke w (S fuel) state = invoke w 1 state
  ∧ (run_status (invoke w (S fuel) state) = Done
     ∧ run_trace (invoke w (S fuel) state) = [NodeAgent]
     ∧ nothing_pending (run_state (invoke w (S fuel) state))
     ∨ run_status (invoke w (S fuel) state) = Crashed (AttributeError "dict" "name")
       ∧ run_trace (invoke w (S fuel) state) = [NodeAgent; NodeTools]
       ∧ ∃ m, last (messages (run_state (invoke w (S fuel) state))) = Some m
              ∧ requests_tool m).
Proof.
  intros Hne. split; [rewrite !invoke_first_round; reflexivity|].
  destruct (run_status (invoke w (S fuel) state)) as [|e|] eqn:Hstatus.
  - left. split; [reflexivity|].
    destruct (run_done_shape _ _ _ Hstatus) as (rounds & m & _ & _ & Hlast & Hno).
    split.
    + revert Hstatus. rewrite invoke_first_round.
      destruct (router (agent_node w state)) as [[|]|e]; simpl;
        [discriminate | reflexivity | discriminate].
    + unfold nothing_pending. rewrite Hlast. exact Hno.
  - right. destruct (run_crash_cause _ _ _ _ Hne Hstatus) as (-> & Htrace & Hm).
    split; [reflexivity|]. split; assumption.
  - exfalso. revert Hstatus. rewrite invoke_first_round.
    destruct (router (agent_node w state)) as [[|]|e]; discriminate.
Qed.

Lemma run_ends_in_first_round_witness :
  invoke travel_world 5 question = invoke travel_world 1 question
  ∧ (run_status (invoke travel_world 5 question) = Done
     ∧ run_trace (invoke travel_world 5 question) = [NodeAgent]
     ∧ nothing_pending (run_state (invoke travel_world 5 question))
     ∨ run_status (invoke travel_world 5 question)
       = Crashed (AttributeError "dict" "name")
       ∧ run_trace (invoke travel_world 5 question) = [NodeAgent; NodeTools]
       ∧ ∃ m, last (messages (run_state (invoke travel_world 5 question))) = Some m
              ∧ requests_tool m).
Proof.
  apply (run_ends_in_first_round travel_world 4 question). discriminate.
Defined.

(** The condition cannot be dropped: on an empty conversation, when the
    agent step appends nothing, the router itself raises [IndexError]. *)
Lemma empty_conversation_crashes_router w fuel :
  unusable_reply (agent_invoke w []) →
  invoke w (S fuel) {| messages := [] |}
  = {| run_state := {| messages := [] |};
       run_status := Crashed IndexError;
       run_trace := [NodeAgent] |}.
Proof.
  intros Hreply. rewrite invoke_S. unfold agent_node; simpl.
  destruct Hreply as [-> | (msgs & m & -> & -> & Hm)].
  - reflexivity.
  - destruct m; [reflexivity | discriminate | reflexivity].
Qed.

(** ** Replies the agent step cannot use *)

(** When the result of the model call is no dict with messages, or its
    last message is no [AIMessage], nothing is appended and no error is
    raised: after the message of a user the run ends [Done] at once, and
    the text the callers read as the answer is the user's own message. *)
Theorem unusable_reply_echoes_question w msgs q fuel :
  unusable_reply (agent_invoke w (msgs ++ [HumanMessage q])) →
  invoke w (S fuel) {| messages := msgs ++ [HumanMessage q] |}
  = {| run_state := {| messages := msgs ++ [HumanMessage q] |};
       run_status := Done;
       run_trace := [NodeAgent] |}
  ∧ answer (run_state (invoke w (S fuel) {| messages := msgs ++ [HumanMessage q] |}))
    = Some q.
Proof.
  intros Hreply.
  assert (Hagent : agent_node w {| messages := msgs ++ [HumanMessage q] |}
                   = {| messages := msgs ++ [HumanMessage q] |}).
  { unfold agent_node; simpl.
    destruct Hreply as [-> | (ms & m & -> & -> & Hm)]; [reflexivity|].
    destruct m; [reflexivity | discriminate | reflexivity]. }
  assert (Hrun : invoke w (S fuel) {| messages := msgs ++ [HumanMessage q] |}
                 = {| run_state := {| messages := msgs ++ [HumanMessage q] |};
                      run_status := Done;
                      run_trace := [NodeAgent] |}).
  { rewrite invoke_S, Hagent. unfold router; simpl. rewrite last_snoc. reflexivity. }
  split; [exact Hrun|]. rewrite Hrun. unfold answer; simpl.
  rewrite last_snoc. reflexivity.
Qed.

Lemma unusable_reply_echoes_question_witness :
  invoke mute_world 3 {| messages := [] ++ [HumanMessage "Hello?"] |}
  = {| run_state := {| messages := [] ++ [HumanMessage "Hello?"] |};
       run_status := Done;
       run_trace := [NodeAgent] |}
  ∧ answer (run_state (invoke mute_world 3
                         {| messages := [] ++ [HumanMessage "Hello?"] |}))
    = Some "Hello?".
Proof.
  apply (unusable_reply_echoes_question mute_world [] "Hello?" 2).
  left. reflexivity.
Defined.

(** When the result of the model call is a dict whose ["messages"] is
    empty, the [[-1]] raises inside the [try]: the apology is appended as
    after a failed call, and the run ends [Done]. *)
Theorem empty_reply_gets_apology w state fuel :
  agent_invoke w (messages state) = Returns (ResultMessages []) →
  invoke w (S fuel) state
  = {| run_state :=
         {| messages :=
              messages state
              ++ [AIMessage "Sorry, I encountered an error. Please try again." []] |};
       run_status := Done;
       run_trace := [NodeAgent] |}.
Proof.
  intros Hinv. rewrite invoke_S. unfold agent_node. rewrite Hinv; simpl.
  unfold apology. rewrite AgentLoop.router_final. reflexivity.
Qed.

Lemma empty_reply_gets_apology_witness :
  invoke hollow_world 2 question
  = {| run_state :=
         {| messages :=
              messages question
              ++ [AIMessage "Sorry, I encountered an error. Please try again." []] |};
       run_status := Done;
       run_trace := [NodeAgent] |}.
Proof.
  apply (empty_reply_gets_apology hollow_world question 1). reflexivity.
Defined.

End GraphRuns.

(** * The two tool functions ([app/tools.py]) *)

Module ToolResults.
Import Tools Agents Props Examples.

Lemma append_empty (s t : string) : s +:+ t = "" → s = "" ∧ t = "".
Proof.
  destruct s as [|a s]; intros H.
  - split; [reflexivity | exact H].
  - change (String a (s +:+ t) = "") in H. discriminate H.
Qed.

Lemma join_empty sep docs :
  sep ≠ "" → join sep docs = "" → docs = [] ∨ docs = [""].
Proof.
  intros Hsep. destruct docs as [|d [|d' docs]]; simpl.
  - left; reflexivity.
  - intros ->. right; reflexivity.
  - intros Hjoin. apply append_empty in Hjoin as [_ Hjoin].
    apply append_empty in Hjoin as [Hjoin _]. contradiction.
Qed.

(** [web_search] never returns the empty text: an empty text of the
    provider is replaced by the fixed sentence.  It catches nothing: it
    raises exactly when the provider does, with the same text. *)
Theorem web_search_never_returns_empty w query :
  (∀ text, web_search w query = Returns text → text ≠ "")
  ∧ (∀ reason, web_search w query = Raises reason
               ↔ duckduckgo_run w query = Raises reason).
Proof.
  unfold web_search.
  destruct (duckduckgo_run w query) as [result|reason']; split.
  - intros text. destruct result; simpl; intros [= <-]; discriminate.
  - intros reason. destruct (truthy_str result); split; discriminate.
  - discriminate.
  - intros reason. split; intros H; exact H.
Qed.

(** [pdf_search] returns the empty text in one case only: the retriever
    returned exactly one document, with empty content.  In particular no
    result of several documents is empty, and the fixed sentence stands
    for an empty list of documents only. *)
Theorem pdf_search_empty_only_for_blank_page w query :
  pdf_search w query = Returns "" →
  retriever_get_relevant_documents w query = Returns [""].
Proof.
  unfold pdf_search.
  destruct (retriever_get_relevant_documents w query) as [docs|reason];
    [|discriminate].
  destruct docs as [|d docs]; [simpl; discriminate|].
  change (Returns (join (LF +:+ LF) (d :: docs)) = Returns ""
          → Returns (d :: docs) = Returns [""]).
  intros [= Hjoin]. change (join (LF +:+ LF) (d :: docs) = "") in Hjoin.
  apply join_empty in Hjoin as [Hnil | ->];
    [discriminate | reflexivity | discriminate].
Qed.

Lemma pdf_search_empty_only_for_blank_page_witness :
  retriever_get_relevant_documents blank_world "Manali" = Returns [""].
Proof.
  apply (pdf_search_empty_only_for_blank_page blank_world "Manali").
  reflexivity.
Defined.

End ToolResults.

(** * Further properties of the routes ([api/server.py]) *)

Module Routes.
Import Tools Agents Server Props Examples.

(** ** The session a request is served in *)

Lemma resolved_conversation chat_sessions request new_id now sid m1 session :
  get_or_create_session chat_sessions (session_id request) new_id now = (sid, m1) →
  m1 !! sid = Some session →
  messages (agent_state session) = conversation_before chat_sessions request.
Proof.
  unfold get_or_create_session, conversation_before.
  destruct (session_id request) as [rid|].
  - destruct (truthy_str rid).
    + destruct (chat_sessions !! rid) as [s|].
      * intros [= <- <-]. rewrite lookup_insert_eq. intros [= <-]. reflexivity.
      * intros [= <- <-]. rewrite lookup_insert_eq. intros [= <-]. reflexivity.
    + intros [= <- <-]. rewrite lookup_insert_eq. intros [= <-]. reflexivity.
  - intros [= <- <-]. rewrite lookup_insert_eq. intros [= <-]. reflexivity.
Qed.

Lemma resolve_existing chat_sessions sid s new_id now :
  sid ≠ "" →
  chat_sessions !! sid = Some s →
  get_or_create_session chat_sessions (Some sid) new_id now
  = (sid, <[sid := {| session_messages := session_messages s;
                      agent_state := agent_state s;
                      created_at := created_at s;
                      last_activity := now;
                      message_count := message_count s |}]> chat_sessions).
Proof.
  intros Hne Hs. unfold get_or_create_session.
  destruct sid; [contradiction|]; simpl. rewrite Hs. reflexivity.
Qed.

Lemma resolve_new chat_sessions request_id new_id now :
  (∀ sid, request_id = Some sid → sid = "" ∨ chat_sessions !! sid = None) →
  get_or_create_session chat_sessions request_id new_id now
  = (new_id, <[new_id := new_session now]> chat_sessions).
Proof.
  intros Hunknown. unfold get_or_create_session.
  destruct request_id as [sid|]; [|reflexivity].
  destruct (Hunknown sid eq_refl) as [-> | Hnone]; [reflexivity|].
  rewrite Hnone. destruct (truthy_str sid); reflexivity.
Qed.

Lemma last_elem_of {A} (l : list A) (x : A) : last l = Some x → x ∈ l.
Proof.
  intros Hlast. apply last_Some in Hlast as [l' ->].
  apply elem_of_app. right. left.
Qed.

Lemma request_holds (msgs : list Message) m :
  last msgs = Some m → requests_tool m → holds_tool_call msgs.
Proof.
  intros Hlast Hm. apply Exists_exists. exists m.
  split; [exact (last_elem_of _ _ Hlast) | exact Hm].
Qed.

Lemma holds_prefix (msgs msgs' : list Message) :
  msgs `prefix_of` msgs' → holds_tool_call msgs → holds_tool_call msgs'.
Proof. intros [k ->] Hex. apply Exists_app. left. exact Hex. Qed.

(** The three ways a request ends, with the map it leaves: answered;
    refused after the session was updated, because the sources could not
    be determined; refused because the graph raised. *)
Lemma chat_outcome w fuel chat_sessions request new_id now r m' :
  chat w fuel chat_sessions request new_id now = Some (r, m') →
  ∃ sid m1 session,
    get_or_create_session chat_sessions (session_id request) new_id now = (sid, m1)
    ∧ m1 !! sid = Some session
    ∧ ((∃ latest,
          last (messages (run_state (turn_run w fuel session request)))
          = Some latest
          ∧ free_of_tool_calls
              (messages (run_state (turn_run w fuel session request)))
          ∧ r = OK {| response := content_of latest;
                      response_session_id := sid;
                      response_timestamp := now;
                      sources_used := [] |}
          ∧ m' = <[sid := session_after_answer session request now
                            (content_of latest)
                            (run_state (turn_run w fuel session request))]> m1)
       ∨ (∃ latest,
            last (messages (run_state (turn_run w fuel session request)))
            = Some latest
            ∧ holds_tool_call
                (messages (run_state (turn_run w fuel session request)))
            ∧ r = HTTPException 500 (InternalServerError no_name)
            ∧ m' = <[sid := session_after_answer session request now
                              (content_of latest)
                              (run_state (turn_run w fuel session request))]> m1)
       ∨ (holds_tool_call
            (messages (run_state (turn_run w fuel session request)))
          ∧ r = HTTPException 500 (InternalServerError no_name)
          ∧ m' = <[sid := session_after_crash session request now
                            (run_state (turn_run w fuel session request))]> m1)).
Proof.
  unfold chat.
  destruct (get_or_create_session _ _ _ _) as [sid m1] eqn:Hg.
  destruct (Sessions.get_or_create_session_lookup _ _ _ _ _ _ Hg)
    as [session Hsession].
  rewrite Hsession. fold (turn_run w fuel session request).
  set (run := turn_run w fuel session request).
  assert (Hne : messages {| messages := messages (agent_state session)
                                          ++ [HumanMessage (message request)] |} ≠ []).
  { simpl. intros Hnil. apply app_eq_nil in Hnil as [_ Hnil]. discriminate. }
  destruct (run_status run) as [|e|] eqn:Hstatus; [| |discriminate].
  - destruct (GraphRuns.run_done_shape _ _ _ Hstatus) as (_ & m & _ & _ & Hlast & _).
    fold (turn_run w fuel session request) in Hlast. fold run in Hlast.
    rewrite Hlast.
    destruct (determine_sources_used (run_state run)) as [sources|e] eqn:Hsources.
    + apply Sessions.determine_sources_used_Return in Hsources as [-> Hfree].
      intros [= <- <-]. exists sid, m1, session.
      split; [reflexivity|]. split; [exact Hsession|].
      left. exists m. repeat split; assumption.
    + apply Sessions.determine_sources_used_Raise in Hsources as [-> Hholds].
      intros [= <- <-]. exists sid, m1, session.
      split; [reflexivity|]. split; [exact Hsession|].
      right; left. exists m. repeat split; assumption.
  - destruct (GraphRuns.run_crash_cause _ _ _ _ Hne Hstatus)
      as (-> & _ & m & Hlast & Hm).
    intros [= <- <-]. exists sid, m1, session.
    split; [reflexivity|]. split; [exact Hsession|].
    right; right. split; [exact (request_holds _ _ Hlast Hm)|].
    split; reflexivity.
Qed.

(** With fuel for one round every request gets its result. *)
Lemma chat_total w fuel chat_sessions request new_id now :
  ∃ r m', chat w (S fuel) chat_sessions request new_id now = Some (r, m').
Proof.
  unfold chat.
  destruct (get_or_create_session _ _ _ _) as [sid m1] eqn:Hg.
  destruct (Sessions.get_or_create_session_lookup _ _ _ _ _ _ Hg)
    as [session Hsession].
  rewrite Hsession. rewrite GraphRuns.invoke_first_round.
  destruct (router _) as [[|]|e]; cbn [run_status run_state].
  - eexists _, _. reflexivity.
  - destruct (last _).
    + destruct (determine_sources_used _); eexists _, _; reflexivity.
    + eexists _, _. reflexivity.
  - eexists _, _. reflexivity.
Qed.

(** ** The failures of [/chat] *)

(** [/chat] never answers 404, and it answers 500 for one reason only:
    the [AttributeError] of reading [.name] from the dict of a tool call,
    in the tool step of the graph or when the sources are determined.  In
    both cases the conversation stored for the session holds a message
    that asks for a tool.  A failing model and an unusable reply end in
    an answer. *)
Theorem chat_fails_only_on_tool_calls w fuel chat_sessions request new_id now
    status_code detail m' :
  chat w fuel chat_sessions request new_id now
  = Some (HTTPException status_code detail, m') →
  status_code = 500
  ∧ detail = InternalServerError (AttributeError "dict" "name")
  ∧ ∃ sid s', m' !! sid = Some s'
              ∧ holds_tool_call (messages (agent_state s')).
Proof.
  intros Hchat.
  apply chat_outcome in Hchat
    as (sid & m1 & session & _ & _
        & [(latest & _ & _ & Hr & _)
          | [(latest & _ & Hholds & Hr & ->) | (Hholds & Hr & ->)]]).
  - discriminate Hr.
  - injection Hr as -> ->. split; [reflexivity|]. split; [reflexivity|].
    eexists sid, _. rewrite lookup_insert_eq. split; [reflexivity | exact Hholds].
  - injection Hr as -> ->. split; [reflexivity|]. split; [reflexivity|].
    eexists sid, _. rewrite lookup_insert_eq. split; [reflexivity | exact Hholds].
Qed.

Lemma chat_fails_only_on_tool_calls_witness :
  ∃ status_code detail m',
    chat confused_world 5 one_session flights "s2" 1000%Z
    = Some (HTTPException status_code detail, m')
    ∧ status_code = 500
    ∧ detail = InternalServerError (AttributeError "dict" "name")
    ∧ ∃ sid s', m' !! sid = Some s'
                ∧ holds_tool_call (messages (agent_state s')).
Proof.
  eexists _, _, _. split; [vm_compute; reflexivity|].
  eapply (chat_fails_only_on_tool_calls confused_world 5 one_session flights
            "s2" 1000%Z).
  vm_compute. reflexivity.
Defined.

(** A conversation that holds a request for a tool blocks its session:
    every later turn in it is refused with status 500, whatever the model
    answers, since the sources are looked for in the whole conversation.
    (Clearing the session empties the conversation.) *)
Theorem tool_call_blocks_session w fuel chat_sessions request new_id now :
  holds_tool_call (conversation_before chat_sessions request) →
  ∃ m',
    chat w (S fuel) chat_sessions request new_id now
    = Some (HTTPException 500 (InternalServerError (AttributeError "dict" "name")),
            m').
Proof.
  intros Hholds.
  destruct (chat_total w fuel chat_sessions request new_id now) as (r & m' & Hchat).
  exists m'. rewrite Hchat.
  apply chat_outcome in Hchat
    as (sid & m1 & session & Hg & Hsession
        & [(latest & _ & Hfree & _ & _)
          | [(latest & _ & _ & -> & _) | (_ & -> & _)]]);
    [|reflexivity..].
  exfalso. apply (Sessions.free_not_holds _ Hfree).
  rewrite <- (resolved_conversation _ _ _ _ _ _ _ Hg Hsession) in Hholds.
  apply (holds_prefix (messages (agent_state session))); [|exact Hholds].
  etrans; [|apply (Sessions.run_graph_prefix w (S fuel))].
  simpl. apply prefix_app_r. reflexivity.
Qed.

Lemma tool_call_blocks_session_witness :
  ∃ m',
    chat travel_world 3 failed_session thanks "s2" 1000%Z
    = Some (HTTPException 500 (InternalServerError (AttributeError "dict" "name")),
            m').
Proof.
  apply (tool_call_blocks_session travel_world 2 failed_session thanks "s2" 1000%Z).
  apply Exists_cons_tl, Exists_cons_hd. discriminate.
Defined.

(** ** What a turn writes into its session *)

(** An answered turn in an existing session: the answer goes out under
    the same identifier; the log gains the question and the answer, in
    that order; the count goes up by one; [last_activity] is the time of
    the request and [created_at] is kept; and the text of the answer is
    the content of the last message of the stored conversation. *)
Theorem answered_turn_bookkeeping w fuel chat_sessions request new_id now
    sid s resp m' :
  session_id request = Some sid →
  sid ≠ "" →
  chat_sessions !! sid = Some s →
  chat w fuel chat_sessions request new_id now = Some (OK resp, m') →
  response_session_id resp = sid
  ∧ ∃ final,
      m' !! sid
      = Some {| session_messages :=
                  session_messages s
                    ++ [user_entry request now;
                        assistant_entry (response resp) now];
                agent_state := final;
                created_at := created_at s;
                last_activity := now;
                message_count := S (message_count s) |}
      ∧ answer final = Some (response resp).
Proof.
  intros Hid Hne Hs Hchat.
  apply chat_outcome in Hchat
    as (sid' & m1 & session & Hg & Hsession & [(latest & Hlast & Hfree & Hr & ->) | [(latest & _ & _ & Hr & _) | (_ & Hr & _)]]);
    [|discriminate Hr..].
  rewrite Hid, (resolve_existing _ _ _ _ _ Hne Hs) in Hg.
  injection Hg as <- <-. rewrite lookup_insert_eq in Hsession.
  injection Hsession as <-. injection Hr as ->.
  unfold session_after_answer, turn_run in *.
  cbn [agent_state session_messages created_at last_activity message_count
       response response_session_id sources_used] in *.
  split; [reflexivity|]. eexists. rewrite lookup_insert_eq.
  split; [reflexivity|]. unfold answer. rewrite Hlast. reflexivity.
Qed.

Lemma answered_turn_bookkeeping_witness :
  ∃ resp m',
    chat travel_world 5 one_session thanks "s2" 1000%Z = Some (OK resp, m')
    ∧ response_session_id resp = "s1"
    ∧ ∃ final,
        m' !! "s1"
        = Some {| session_messages :=
                    session_messages after_first_turn
                      ++ [user_entry thanks 1000%Z;
                          assistant_entry (response resp) 1000%Z];
                  agent_state := final;
                  created_at := created_at after_first_turn;
                  last_activity := 1000%Z;
                  message_count := S (message_count after_first_turn) |}
        ∧ answer final = Some (response resp).
Proof.
  eexists _, _. split; [vm_compute; reflexivity|].
  apply (answered_turn_bookkeeping travel_world 5 one_session thanks "s2"
           1000%Z "s1" after_first_turn).
  - reflexivity.
  - discriminate.
  - reflexivity.
  - vm_compute. reflexivity.
Defined.



(** A request without identifier, with the empty one or with one the
    server does not know is answered in a new session under the generated
    identifier: created and last active at the time of the request, with
    one question, one answer and the count 1.  An unknown identifier is
    not adopted: it names no session afterwards either. *)
Theorem unknown_id_gets_new_session w fuel chat_sessions request new_id now
    resp m' :
  (∀ sid, session_id request = Some sid →
          sid = "" ∨ chat_sessions !! sid = None) →
  chat w fuel chat_sessions request new_id now = Some (OK resp, m') →
  response_session_id resp = new_id
  ∧ (∃ final,
       m' !! new_id
       = Some {| session_messages :=
                   [user_entry request now; assistant_entry (response resp) now];
                 agent_state := final;
                 created_at := now;
                 last_activity := now;
                 message_count := 1 |})
  ∧ (∀ sid, session_id request = Some sid → sid ≠ new_id →
            m' !! sid = chat_sessions !! sid).
Proof.
  intros Hunknown Hchat.
  apply chat_outcome in Hchat
    as (sid' & m1 & session & Hg & Hsession & [(latest & Hlast & Hfree & Hr & ->) | [(latest & _ & _ & Hr & _) | (_ & Hr & _)]]);
    [|discriminate Hr..].
  rewrite (resolve_new _ _ _ _ Hunknown) in Hg.
  injection Hg as <- <-. rewrite lookup_insert_eq in Hsession.
  injection Hsession as <-. injection Hr as ->.
  unfold session_after_answer, turn_run in *.
  cbn [agent_state session_messages created_at last_activity message_count
       response response_session_id sources_used] in *.
  split; [reflexivity|]. split.
  - eexists. rewrite lookup_insert_eq. reflexivity.
  - intros sid _ Hne. rewrite !lookup_insert_ne by congruence. reflexivity.
Qed.

Lemma unknown_id_gets_new_session_witness :
  ∃ resp m',
    chat travel_world 5 one_session stranger "s2" 1000%Z = Some (OK resp, m')
    ∧ response_session_id resp = "s2"
    ∧ (∃ final,
         m' !! "s2"
         = Some {| session_messages :=
                     [user_entry stranger 1000%Z;
                      assistant_entry (response resp) 1000%Z];
                   agent_state := final;
                   created_at := 1000%Z;
                   last_activity := 1000%Z;
                   message_count := 1 |})
    ∧ (∀ sid, session_id stranger = Some sid → sid ≠ "s2" →
              m' !! sid = one_session !! sid).
Proof.
  eexists _, _. split; [vm_compute; reflexivity|].
  apply (unknown_id_gets_new_session travel_world 5 one_session stranger "s2"
           1000%Z).
  - intros sid [= <-]. right. reflexivity.
  - vm_compute. reflexivity.
Defined.

(** A request, answered or failed, touches no session but the one it
    names and the one under the generated identifier. *)
Theorem chat_leaves_other_sessions w fuel chat_sessions request new_id now
    r m' sid :
  chat w fuel chat_sessions request new_id now = Some (r, m') →
  sid ≠ new_id →
  session_id request ≠ Some sid →
  m' !! sid = chat_sessions !! sid.
Proof.
  intros Hchat Hnew Hreq.
  apply Sessions.chat_inv in Hchat
    as (sid0 & m1 & session & s' & Hg & _ & -> & _).
  apply Sessions.get_or_create_session_spec in Hg
    as [(s0 & _ & Hid & ->) | [-> ->]].
  - rewrite !lookup_insert_ne by congruence. reflexivity.
  - rewrite !lookup_insert_ne by congruence. reflexivity.
Qed.

Lemma chat_leaves_other_sessions_witness :
  ∃ r m',
    chat travel_world 5 three_sessions thanks "s2" 1000%Z = Some (r, m')
    ∧ m' !! "old" = three_sessions !! "old".
Proof.
  eexists _, _. split; [vm_compute; reflexivity|].
  eapply (chat_leaves_other_sessions travel_world 5 three_sessions thanks "s2"
            1000%Z _ _ "old").
  - vm_compute. reflexivity.
  - discriminate.
  - discriminate.
Defined.

(** ** Requests that are answered *)

(** An answered turn never reports a source: [sources_used] is empty in
    every response, and the conversation stored with it holds no request
    for a tool. *)
Theorem answered_turn_reports_no_source w fuel chat_sessions request new_id now
    resp m' :
  chat w fuel chat_sessions request new_id now = Some (OK resp, m') →
  sources_used resp = []
  ∧ ∃ s', m' !! response_session_id resp = Some s'
          ∧ free_of_tool_calls (messages (agent_state s')).
Proof.
  intros Hchat.
  apply chat_outcome in Hchat
    as (sid & m1 & session & _ & _ & [(latest & Hlast & Hfree & Hr & ->) | [(latest & _ & _ & Hr & _) | (_ & Hr & _)]]);
    [|discriminate Hr..].
  injection Hr as ->. cbn [sources_used response_session_id].
  split; [reflexivity|]. eexists. rewrite lookup_insert_eq.
  split; [reflexivity | exact Hfree].
Qed.

Lemma answered_turn_reports_no_source_witness :
  ∃ resp m',
    chat travel_world 5 one_session thanks "s2" 1000%Z = Some (OK resp, m')
    ∧ sources_used resp = []
    ∧ ∃ s', m' !! response_session_id resp = Some s'
            ∧ free_of_tool_calls (messages (agent_state s')).
Proof.
  eexists _, _. split; [vm_compute; reflexivity|].
  apply (answered_turn_reports_no_source travel_world 5 one_session thanks "s2"
           1000%Z).
  vm_compute. reflexivity.
Defined.

(** In a session whose conversation holds no request for a tool, a
    failure of the model is no failure of the request: [/chat] answers
    with the apology as the response, and no source. *)
Theorem model_failure_is_answered w fuel chat_sessions request new_id now reason :
  free_of_tool_calls (conversation_before chat_sessions request) →
  agent_invoke w (conversation_before chat_sessions request
                    ++ [HumanMessage (message request)])
  = Raises reason →
  ∃ resp m',
    chat w (S fuel) chat_sessions request new_id now = Some (OK resp, m')
    ∧ response resp = "Sorry, I encountered an error. Please try again."
    ∧ sources_used resp = [].
Proof.
  intros Hfree Hinv.
  destruct (get_or_create_session chat_sessions (session_id request) new_id now)
    as [sid m1] eqn:Hg.
  destruct (Sessions.get_or_create_session_lookup _ _ _ _ _ _ Hg)
    as [session Hsession].
  rewrite <- (resolved_conversation _ _ _ _ _ _ _ Hg Hsession) in Hinv, Hfree.
  assert (Hrun : invoke w (S fuel)
                   {| messages := messages (agent_state session)
                                    ++ [HumanMessage (message request)] |}
                 = {| run_state :=
                        {| messages := (messages (agent_state session)
                                          ++ [HumanMessage (message request)])
                                         ++ [apology] |};
                      run_status := Done;
                      run_trace := [NodeAgent] |}).
  { rewrite GraphRuns.invoke_first_round. unfold agent_node. cbn [messages].
    rewrite Hinv. unfold apology. rewrite AgentLoop.router_final. reflexivity. }
  assert (Hsources : determine_sources_used
                       {| messages := (messages (agent_state session)
                                         ++ [HumanMessage (message request)])
                                        ++ [apology] |}
                     = Return []).
  { unfold determine_sources_used. cbn [messages].
    rewrite Sessions.collect_sources_free; [reflexivity|].
    unfold free_of_tool_calls. rewrite !Forall_app.
    split; [split; [exact Hfree|] |]; repeat constructor. }
  unfold chat. rewrite Hg, Hsession, Hrun.
  cbn [run_status run_state messages]. rewrite last_snoc, Hsources.
  eexists _, _. split; [reflexivity|]. split; reflexivity.
Qed.

Lemma model_failure_is_answered_witness :
  ∃ resp m',
    chat offline_world 3 one_session thanks "s2" 1000%Z = Some (OK resp, m')
    ∧ response resp = "Sorry, I encountered an error. Please try again."
    ∧ sources_used resp = [].
Proof.
  apply (model_failure_is_answered offline_world 2 one_session thanks "s2"
           1000%Z "connection refused").
  - repeat constructor.
  - reflexivity.
Defined.

(** The session of an answered request is safe from the sweep for the
    next 24 hours, the last microsecond included. *)
Theorem answered_session_survives_sweep w fuel chat_sessions request new_id now
    resp m' t :
  chat w fuel chat_sessions request new_id now = Some (OK resp, m') →
  (t - now ≤ 24 * 3600 * 1000000)%Z →
  ∃ s',
    m' !! response_session_id resp = Some s'
    ∧ (cleanup_old_sessions m' t).1 !! response_session_id resp = Some s'.
Proof.
  intros Hchat Ht.
  apply chat_outcome in Hchat
    as (sid & m1 & session & _ & _ & [(latest & Hlast & Hfree & Hr & ->) | [(latest & _ & _ & Hr & _) | (_ & Hr & _)]]);
    [|discriminate Hr..].
  injection Hr as ->. cbn [response_session_id].
  eexists. rewrite Sessions.cleanup_lookup, lookup_insert_eq.
  split; [reflexivity|]. unfold older_than_24h, session_after_answer.
  cbn [last_activity].
  destruct (Z.ltb_spec (24 * 3600 * 1000000) (t - now)); [lia | reflexivity].
Qed.

Lemma answered_session_survives_sweep_witness :
  ∃ resp m',
    chat travel_world 5 one_session thanks "s2" 1000%Z = Some (OK resp, m')
    ∧ ∃ s',
        m' !! response_session_id resp = Some s'
        ∧ (cleanup_old_sessions m' (day + 1000)%Z).1 !! response_session_id resp
          = Some s'.
Proof.
  eexists _, _. split; [vm_compute; reflexivity|].
  apply (answered_session_survives_sweep travel_world 5 one_session thanks "s2"
           1000%Z).
  - vm_compute. reflexivity.
  - vm_compute. discriminate.
Defined.

(** ** Deleting, clearing and listing *)

Lemma elem_of_list_sessions chat_sessions info :
  info ∈ list_sessions chat_sessions
  ↔ ∃ sid s, chat_sessions !! sid = Some s ∧ info = session_info sid s.
Proof.
  unfold list_sessions. rewrite list_elem_of_fmap. split.
  - intros ([sid s] & -> & Hin). apply elem_of_map_to_list in Hin.
    exists sid, s. split; [exact Hin | reflexivity].
  - intros (sid & s & Hs & ->). exists (sid, s). split; [reflexivity|].
    apply elem_of_map_to_list. exact Hs.
Qed.

(** Deleting a session that exists succeeds, and the session is gone for
    every route: its info is a 404, deleting it again is a 404 that
    changes nothing, the listing has no entry for it; every other
    session answers as before. *)
Theorem delete_session_round_trip chat_sessions sid s :
  chat_sessions !! sid = Some s →
  (delete_session chat_sessions sid).1 = OK tt
  ∧ get_session_info (delete_session chat_sessions sid).2 sid
    = HTTPException 404 SessionNotFound
  ∧ delete_session (delete_session chat_sessions sid).2 sid
    = (HTTPException 404 SessionNotFound, (delete_session chat_sessions sid).2)
  ∧ (∀ info, info ∈ list_sessions (delete_session chat_sessions sid).2 →
             info_session_id info ≠ sid)
  ∧ (∀ other, other ≠ sid →
       get_session_info (delete_session chat_sessions sid).2 other
       = get_session_info chat_sessions other
       ∧ get_session_messages (delete_session chat_sessions sid).2 other
         = get_session_messages chat_sessions other).
Proof.
  intros Hs.
  assert (Hdel : delete_session chat_sessions sid
                 = (OK tt, delete sid chat_sessions)).
  { unfold delete_session. rewrite Hs. reflexivity. }
  rewrite Hdel. cbn [fst snd]. split; [reflexivity|]. split.
  { unfold get_session_info. rewrite lookup_delete_eq. reflexivity. }
  split.
  { unfold delete_session. rewrite lookup_delete_eq. reflexivity. }
  split.
  { intros info Hin. apply elem_of_list_sessions in Hin as (k & s' & Hk & ->).
    simpl. intros ->. rewrite lookup_delete_eq in Hk. discriminate. }
  intros other Hne. unfold get_session_info, get_session_messages.
  rewrite lookup_delete_ne by congruence. split; reflexivity.
Qed.

Lemma delete_session_round_trip_witness :
  (delete_session three_sessions "edge").1 = OK tt
  ∧ get_session_info (delete_session three_sessions "edge").2 "edge"
    = HTTPException 404 SessionNotFound
  ∧ delete_session (delete_session three_sessions "edge").2 "edge"
    = (HTTPException 404 SessionNotFound, (delete_session three_sessions "edge").2)
  ∧ (∀ info, info ∈ list_sessions (delete_session three_sessions "edge").2 →
             info_session_id info ≠ "edge")
  ∧ (∀ other, other ≠ "edge" →
       get_session_info (delete_session three_sessions "edge").2 other
       = get_session_info three_sessions other
       ∧ get_session_messages (delete_session three_sessions "edge").2 other
         = get_session_messages three_sessions other).
Proof.
  apply (delete_session_round_trip three_sessions "edge" (idle_since 1%Z)).
  reflexivity.
Defined.

(** Clearing a session keeps the session and its two dates and empties
    the rest: its info shows the count 0, its log is empty, and a request
    naming it starts from the empty conversation.  Clearing twice is
    clearing once. *)
Theorem clear_session_resets chat_sessions sid s :
  chat_sessions !! sid = Some s →
  sid ≠ "" →
  (clear_session chat_sessions sid).1 = OK tt
  ∧ get_session_info (clear_session chat_sessions sid).2 sid
    = OK {| info_session_id := sid;
            info_created_at := created_at s;
            info_message_count := 0;
            info_last_activity := last_activity s |}
  ∧ get_session_messages (clear_session chat_sessions sid).2 sid = OK []
  ∧ (∀ text,
       conversation_before (clear_session chat_sessions sid).2
         {| message := text; session_id := Some sid |} = [])
  ∧ clear_session (clear_session chat_sessions sid).2 sid
    = clear_session chat_sessions sid.
Proof.
  intros Hs Hne.
  assert (Hclear : clear_session chat_sessions sid
                   = (OK tt,
                      <[sid := {| session_messages := [];
                                  agent_state := {| messages := [] |};
                                  created_at := created_at s;
                                  last_activity := last_activity s;
                                  message_count := 0 |}]> chat_sessions)).
  { unfold clear_session. rewrite Hs. reflexivity. }
  rewrite Hclear. cbn [fst snd]. split; [reflexivity|]. split.
  { unfold get_session_info. rewrite lookup_insert_eq. reflexivity. }
  split.
  { unfold get_session_messages. rewrite lookup_insert_eq. reflexivity. }
  split.
  { intros text. unfold conversation_before; simpl.
    destruct sid; [contradiction|]; simpl.
    rewrite lookup_insert_eq. reflexivity. }
  unfold clear_session. rewrite lookup_insert_eq; simpl.
  rewrite insert_insert_eq. reflexivity.
Qed.

Lemma clear_session_resets_witness :
  (clear_session one_session "s1").1 = OK tt
  ∧ get_session_info (clear_session one_session "s1").2 "s1"
    = OK {| info_session_id := "s1";
            info_created_at := created_at after_first_turn;
            info_message_count := 0;
            info_last_activity := last_activity after_first_turn |}
  ∧ get_session_messages (clear_session one_session "s1").2 "s1" = OK []
  ∧ (∀ text,
       conversation_before (clear_session one_session "s1").2
         {| message := text; session_id := Some "s1" |} = [])
  ∧ clear_session (clear_session one_session "s1").2 "s1"
    = clear_session one_session "s1".
Proof.
  apply (clear_session_resets one_session "s1" after_first_turn).
  - reflexivity.
  - discriminate.
Defined.

(** The listing has exactly one entry for every session, carrying its
    identifier, its two dates and its count (the order of the entries is
    left open here). *)
Theorem list_sessions_entries chat_sessions :
  length (list_sessions chat_sessions) = size chat_sessions
  ∧ NoDup (info_session_id <$> list_sessions chat_sessions)
  ∧ ∀ info,
      info ∈ list_sessions chat_sessions
      ↔ ∃ sid s, chat_sessions !! sid = Some s
                 ∧ info = {| info_session_id := sid;
                             info_created_at := created_at s;
                             info_message_count := message_count s;
                             info_last_activity := last_activity s |}.
Proof.
  split; [|split].
  - unfold list_sessions. rewrite length_fmap. apply length_map_to_list.
  - unfold list_sessions. rewrite <- list_fmap_compose.
    apply (NoDup_fst_map_to_list chat_sessions).
  - apply elem_of_list_sessions.
Qed.

(** ** More on the sweep *)

Lemma older_than_24h_mono t1 t2 s :
  (t1 ≤ t2)%Z → older_than_24h t1 s = true → older_than_24h t2 s = true.
Proof.
  unfold older_than_24h. intros Hle Hold.
  apply Z.ltb_lt in Hold. apply Z.ltb_lt. lia.
Qed.

(** The sessions the sweep keeps, as a filter of the map. *)
Lemma cleanup_kept chat_sessions now :
  (cleanup_old_sessions chat_sessions now).1
  = filter (fun p => ¬ older_than_24h now p.2 = true) chat_sessions.
Proof.
  apply map_eq; intros sid. rewrite Sessions.cleanup_lookup, map_lookup_filter.
  destruct (chat_sessions !! sid) as [s|]; simpl; [|reflexivity].
  destruct (older_than_24h now s) eqn:Hold.
  - rewrite option_guard_False; [reflexivity|]. intros Hnot. apply Hnot. reflexivity.
  - rewrite option_guard_True; [reflexivity|]. discriminate.
Qed.

Lemma length_filter_map_to_list (P : string * Session → Prop)
    `{!∀ x, Decision (P x)} (m : gmap string Session) :
  length (filter P (map_to_list m)) = size (filter P m).
Proof.
  induction m as [|sid s m Hsid IH] using map_ind.
  - rewrite map_to_list_empty, map_filter_empty, map_size_empty. reflexivity.
  - rewrite (map_to_list_insert m sid s Hsid), filter_cons.
    destruct (decide (P (sid, s))) as [HP | HP].
    + rewrite map_filter_insert_True by exact HP.
      rewrite map_size_insert_None.
      * simpl. rewrite IH. reflexivity.
      * rewrite map_lookup_filter, Hsid. reflexivity.
    + rewrite map_filter_insert_False by exact HP.
      rewrite (delete_id m sid Hsid). exact IH.
Qed.

(** The number the sweep logs is the number of sessions it removed. *)
Theorem cleanup_counts_removed chat_sessions now :
  (cleanup_old_sessions chat_sessions now).2
  + size (cleanup_old_sessions chat_sessions now).1
  = size chat_sessions.
Proof.
  rewrite cleanup_kept. unfold cleanup_old_sessions; cbn [snd].
  rewrite length_fmap, length_filter_map_to_list.
  rewrite <- (map_size_disj_union _ _
                (map_disjoint_filter_complement
                   (fun p => older_than_24h now p.2 = true) chat_sessions)).
  rewrite map_filter_union_complement. reflexivity.
Qed.

(** A later sweep makes an earlier one superfluous: sweeping at [t1] and
    then at [t2 ≥ t1] leaves the sessions that sweeping at [t2] alone
    leaves.  In particular a second sweep at the same time changes
    nothing and counts no session. *)
Theorem later_sweep_subsumes_earlier chat_sessions t1 t2 :
  (t1 ≤ t2)%Z →
  (cleanup_old_sessions (cleanup_old_sessions chat_sessions t1).1 t2).1
  = (cleanup_old_sessions chat_sessions t2).1
  ∧ cleanup_old_sessions (cleanup_old_sessions chat_sessions t2).1 t2
    = ((cleanup_old_sessions chat_sessions t2).1, 0).
Proof.
  intros Hle.
  assert (Hmaps : ∀ t, (t ≤ t2)%Z →
            (cleanup_old_sessions (cleanup_old_sessions chat_sessions t).1 t2).1
            = (cleanup_old_sessions chat_sessions t2).1).
  { intros t Ht. apply map_eq; intros sid. rewrite !Sessions.cleanup_lookup.
    destruct (chat_sessions !! sid) as [s|]; [|reflexivity].
    destruct (older_than_24h t s) eqn:Hold.
    - rewrite (older_than_24h_mono _ _ _ Ht Hold). reflexivity.
    - reflexivity. }
  split; [exact (Hmaps t1 Hle)|].
  pose proof (Hmaps t2 (Z.le_refl t2)) as Hsame.
  pose proof (cleanup_counts_removed (cleanup_old_sessions chat_sessions t2).1 t2)
    as Hcount.
  rewrite Hsame in Hcount.
  destruct (cleanup_old_sessions (cleanup_old_sessions chat_sessions t2).1 t2)
    as [kept count] eqn:Hsweep.
  cbn [fst snd] in *. subst kept. f_equal. lia.
Qed.

Lemma later_sweep_subsumes_earlier_witness :
  (cleanup_old_sessions (cleanup_old_sessions three_sessions day).1 (day + 1)%Z).1
  = (cleanup_old_sessions three_sessions (day + 1)%Z).1
  ∧ cleanup_old_sessions (cleanup_old_sessions three_sessions (day + 1)%Z).1
      (day + 1)%Z
    = ((cleanup_old_sessions three_sessions (day + 1)%Z).1, 0).
Proof.
  apply (later_sweep_subsumes_earlier three_sessions day (day + 1)%Z).
  vm_compute. discriminate.
Defined.

End Routes.

(** * The ingestion pipeline run twice ([app/retriever.py]) *)

Module Rebuild.
Import Retriever Examples.

Section Pipeline.
Variables Disk Document VectorDB : Type.
Variable path_exists : Disk → bool.
Variable listdir : Disk → list string.
Variable load_documents : Disk → list Document.
Variable split_documents : list Document → list Document.
Variable Chroma : Disk → VectorDB.
Variable Chroma_from_documents : list Document → Disk → VectorDB * Disk.

(** What the pipeline relies on in the vector store: the store built from
    documents is saved to the directory, which is then not empty, and
    opening that directory gives the store that was built. *)
Hypothesis from_documents_persists :
  ∀ chunks disk,
    path_exists (Chroma_from_documents chunks disk).2 = true
    ∧ listdir (Chroma_from_documents chunks disk).2 ≠ []
    ∧ Chroma (Chroma_from_documents chunks disk).2
      = (Chroma_from_documents chunks disk).1.

Local Abbreviation build :=
  (build_or_load_vectorstore Disk Document VectorDB path_exists listdir
     load_documents split_documents Chroma Chroma_from_documents).

(** On a disk whose index directory is missing or empty (an empty
    directory counts as no index), the pipeline loads the documents,
    splits them, and embeds and stores the chunks, in that order.  If the
    vector store persists what it builds, the next run finds that index:
    it ingests nothing, leaves the disk alone and returns the store of the
    first run. *)
Theorem first_run_builds_second_reuses disk :
  path_exists disk = false ∨ listdir disk = [] →
  build disk
  = ((Chroma_from_documents (split_documents (load_documents disk)) disk).1,
     (Chroma_from_documents (split_documents (load_documents disk)) disk).2,
     [LoadDocuments; SplitDocuments; GetEmbeddingModel; ChromaFromDocuments])
  ∧ build (build disk).1.2
    = ((build disk).1.1, (build disk).1.2, [GetEmbeddingModel; OpenChroma])
  ∧ Forall (fun e => ingests e = false) (build (build disk).1.2).2.
Proof.
  intros Hmissing.
  assert (Hfirst :
    build disk
    = ((Chroma_from_documents (split_documents (load_documents disk)) disk).1,
       (Chroma_from_documents (split_documents (load_documents disk)) disk).2,
       [LoadDocuments; SplitDocuments; GetEmbeddingModel; ChromaFromDocuments])).
  { unfold build_or_load_vectorstore.
    assert (Htest : path_exists disk && truthy_list (listdir disk) = false).
    { destruct Hmissing as [-> | ->]; [reflexivity|].
      destruct (path_exists disk); reflexivity. }
    rewrite Htest.
    destruct (Chroma_from_documents _ disk) as [vectordb disk']. reflexivity. }
  split; [exact Hfirst|]. rewrite Hfirst; cbn [fst snd].
  destruct (from_documents_persists (split_documents (load_documents disk)) disk)
    as (Hexists & Hfiles & Hopen).
  rewrite (Ingestion.build_populated _ _ _ _ _ _ _ _ _ _ Hexists Hfiles), Hopen.
  split; [reflexivity | repeat constructor].
Qed.

End Pipeline.

Lemma first_run_builds_second_reuses_witness :
  toy_build fresh_disk
  = ((toy_from_documents (pdfs fresh_disk) fresh_disk).1,
     (toy_from_documents (pdfs fresh_disk) fresh_disk).2,
     [LoadDocuments; SplitDocuments; GetEmbeddingModel; ChromaFromDocuments])
  ∧ toy_build (toy_build fresh_disk).1.2
    = ((toy_build fresh_disk).1.1, (toy_build fresh_disk).1.2,
       [GetEmbeddingModel; OpenChroma])
  ∧ Forall (fun e => ingests e = false) (toy_build (toy_build fresh_disk).1.2).2.
Proof.
  apply (first_run_builds_second_reuses ToyDisk string (list string)
           toy_exists toy_listdir pdfs (fun docs => docs) toy_open
           toy_from_documents).
  - intros chunks disk. split; [reflexivity|]. split; [discriminate | reflexivity].
  - left. reflexivity.
Defined.

End Rebuild.

(** * The two front ends ([ui/interface.py], [run.py]) *)

Module Frontends.
Import Tools Agents Props Examples Interface ChatLoop.

(** ** The chat page *)

Lemma question_not_nil (msgs : list Message) q :
  messages {| messages := msgs ++ [HumanMessage q] |} ≠ [].
Proof. simpl. intros Hnil. apply app_eq_nil in Hnil as [_ Hnil]. discriminate. Qed.

Lemma submit_inv w fuel py_repr st prompt st' :
  submit w fuel py_repr st prompt = Some st' →
  ∃ reply,
    ui_messages st'
    = ui_messages st
      ++ [{| bubble_role := "user"; bubble_content := prompt |};
          {| bubble_role := "assistant"; bubble_content := reply |}]
    ∧ (messages (ui_agent_state st) ++ [HumanMessage prompt])
        `prefix_of` messages (ui_agent_state st')
    ∧ (answer (ui_agent_state st') = Some reply
       ∧ nothing_pending (ui_agent_state st')
       ∨ reply = error_prefix +:+ "'dict' object has no attribute 'name'"
         ∧ ∃ m, last (messages (ui_agent_state st')) = Some m
                ∧ requests_tool m).
Proof.
  unfold submit.
  set (run := invoke w fuel _).
  pose proof (Sessions.run_graph_prefix w fuel
                {| messages := messages (ui_agent_state st)
                                 ++ [HumanMessage prompt] |} []) as Hprefix.
  fold (invoke w fuel {| messages := messages (ui_agent_state st)
                                       ++ [HumanMessage prompt] |}) in Hprefix.
  fold run in Hprefix. cbn [messages] in Hprefix.
  destruct (run_status run) as [|e|] eqn:Hstatus; [| |discriminate].
  - destruct (GraphRuns.run_done_shape _ _ _ Hstatus)
      as (_ & m & _ & _ & Hlast & Hno).
    fold run in Hlast. rewrite Hlast. intros [= <-].
    exists (content_of m). cbn [ui_messages ui_agent_state].
    split; [rewrite <- app_assoc; reflexivity|]. split; [exact Hprefix|].
    left. unfold answer, nothing_pending. rewrite Hlast.
    split; [reflexivity | exact Hno].
  - destruct (GraphRuns.run_crash_cause _ _ _ _ (question_not_nil _ _) Hstatus)
      as (-> & _ & m & Hlast & Hm).
    intros [= <-].
    exists (error_prefix +:+ "'dict' object has no attribute 'name'").
    cbn [ui_messages ui_agent_state].
    split; [rewrite <- app_assoc; reflexivity|]. split; [exact Hprefix|].
    right. split; [reflexivity|]. exists m. split; assumption.
Qed.

(** A prompt that was entered always gets its two bubbles, the question
    and one reply, and the conversation of the agent keeps the question.
    When the model asked for no tool, the reply is the content of the
    last message of that conversation.  When it asked for a tool, the
    graph raised, and the reply is the error text of the page followed
    by the text of the [AttributeError]: the page shows the crash, it
    does not die of it, and the request of the model stays the last
    message of the conversation. *)
Theorem submit_adds_question_and_reply w fuel py_repr st prompt st' :
  submit w fuel py_repr st prompt = Some st' →
  ∃ reply,
    ui_messages st'
    = ui_messages st
      ++ [{| bubble_role := "user"; bubble_content := prompt |};
          {| bubble_role := "assistant"; bubble_content := reply |}]
    ∧ (messages (ui_agent_state st) ++ [HumanMessage prompt])
        `prefix_of` messages (ui_agent_state st')
    ∧ (answer (ui_agent_state st') = Some reply
       ∧ nothing_pending (ui_agent_state st')
       ∨ reply = error_prefix +:+ "'dict' object has no attribute 'name'"
         ∧ ∃ m, last (messages (ui_agent_state st')) = Some m
                ∧ requests_tool m).
Proof. apply submit_inv. Qed.

Lemma submit_adds_question_and_reply_witness :
  ∃ st',
    submit confused_world 5 (fun key => key) initial_state "Any flights?"
    = Some st'
    ∧ ∃ reply,
        ui_messages st'
        = ui_messages initial_state
          ++ [{| bubble_role := "user"; bubble_content := "Any flights?" |};
              {| bubble_role := "assistant"; bubble_content := reply |}]
        ∧ (messages (ui_agent_state initial_state)
             ++ [HumanMessage "Any flights?"])
            `prefix_of` messages (ui_agent_state st')
        ∧ (answer (ui_agent_state st') = Some reply
           ∧ nothing_pending (ui_agent_state st')
           ∨ reply = error_prefix +:+ "'dict' object has no attribute 'name'"
             ∧ ∃ m, last (messages (ui_agent_state st')) = Some m
                    ∧ requests_tool m).
Proof.
  eexists. split; [vm_compute; reflexivity|].
  apply (submit_adds_question_and_reply confused_world 5 (fun key => key)
           initial_state "Any flights?").
  vm_compute. reflexivity.
Defined.

(** The numbers of "Chat Statistics" *)

Lemma rerun_balanced w fuel py_repr st ev st' :
  rerun w fuel py_repr st ev = Some st' →
  user_messages st = bot_messages st →
  total_messages st = 2 * user_messages st →
  user_messages st' = bot_messages st'
  ∧ total_messages st' = 2 * user_messages st'.
Proof.
  intros Hrerun Hbal Htotal.
  assert (Hsame : st' = st → user_messages st' = bot_messages st'
                             ∧ total_messages st' = 2 * user_messages st').
  { intros ->. split; assumption. }
  destruct ev as [[prompt|]|]; simpl in Hrerun.
  - destruct (truthy_str prompt).
    + apply submit_inv in Hrerun as (reply & Hbubbles & _).
      unfold user_messages, bot_messages, total_messages in *.
      rewrite Hbubbles, !filter_app, !length_app.
      change (length (filter (fun m => bubble_role m = "user")
                        [{| bubble_role := "user"; bubble_content := prompt |};
                         {| bubble_role := "assistant"; bubble_content := reply |}]))
        with 1.
      change (length (filter (fun m => bubble_role m = "assistant")
                        [{| bubble_role := "user"; bubble_content := prompt |};
                         {| bubble_role := "assistant"; bubble_content := reply |}]))
        with 1.
      simpl length. lia.
    + injection Hrerun as <-. apply Hsame. reflexivity.
  - injection Hrerun as <-. apply Hsame. reflexivity.
  - injection Hrerun as <-. split; reflexivity.
Qed.

(** Whatever the user does (prompts, empty prompts, "Clear Chat"), and
    however the turns end, the log of the page holds as many replies as
    questions: "Q&A Pairs" counts whole pairs and "Total" is twice that
    number. *)
Theorem statistics_stay_balanced w fuel py_repr evs st :
  reruns w fuel py_repr initial_state evs = Some st →
  user_messages st = bot_messages st
  ∧ total_messages st = 2 * user_messages st.
Proof.
  assert (Hgen : ∀ evs st0,
            user_messages st0 = bot_messages st0 →
            total_messages st0 = 2 * user_messages st0 →
            reruns w fuel py_repr st0 evs = Some st →
            user_messages st = bot_messages st
            ∧ total_messages st = 2 * user_messages st).
  { clear evs. induction evs as [|ev evs IH]; intros st0 Hbal Htotal; simpl.
    - intros [= <-]. split; assumption.
    - destruct (rerun w fuel py_repr st0 ev) as [st1|] eqn:Hrerun; [|discriminate].
      destruct (rerun_balanced _ _ _ _ _ _ Hrerun Hbal Htotal) as [Hbal1 Htotal1].
      apply IH; assumption. }
  apply Hgen; reflexivity.
Qed.

Lemma statistics_stay_balanced_witness :
  ∃ st,
    reruns confused_world 5 (fun key => key) initial_state
      [Prompt (Some "Any flights?"); Prompt None; Prompt (Some "Hello?")]
    = Some st
    ∧ user_messages st = bot_messages st
    ∧ total_messages st = 2 * user_messages st.
Proof.
  eexists. split; [vm_compute; reflexivity|].
  apply (statistics_stay_balanced confused_world 5 (fun key => key)
           [Prompt (Some "Any flights?"); Prompt None; Prompt (Some "Hello?")]).
  vm_compute. reflexivity.
Defined.

(** ** The loop of the terminal *)

(** What is typed after an exit word is never read. *)
Theorem exit_word_ends_loop w fuel lower q :
  is_exit lower q = true →
  ∀ before conversation after,
    chat_loop w fuel lower conversation (before ++ q :: after)
    = chat_loop w fuel lower conversation (before ++ [q]).
Proof.
  intros Hexit. induction before as [|x before IH]; intros conversation after; simpl.
  - rewrite Hexit. reflexivity.
  - destruct (is_exit lower x); [reflexivity|].
    destruct (run_status _); try reflexivity.
    destruct (last _); [|reflexivity].
    rewrite (IH _ after). reflexivity.
Qed.

Lemma exit_word_ends_loop_witness :
  chat_loop travel_world 5 toy_lower []
    (["Thanks!"] ++ "EXIT" :: ["What places to visit in Manali?"])
  = chat_loop travel_world 5 toy_lower [] (["Thanks!"] ++ ["EXIT"]).
Proof.
  apply (exit_word_ends_loop travel_world 5 toy_lower "EXIT"). reflexivity.
Defined.

(** How the loop can end.  With "Bye!": then an exit word was typed, every
    line before the first one got exactly one line of answer, and "Bye!"
    is the last line printed.  Otherwise with a traceback, of one of two
    errors: the [EOFError] of [input()], when the lines ran out with no
    exit word among them and each had got its line of answer; or the
    [AttributeError] of the tool step, when the model asked for a tool,
    and then the line that led to it got no answer. *)
Theorem chat_loop_endings w fuel lower :
  ∀ inputs conversation printed ending,
    chat_loop w fuel lower conversation inputs = Some (printed, ending) →
    match ending with
    | Bye =>
        ∃ before q after,
          inputs = before ++ q :: after
          ∧ Forall (fun x => is_exit lower x = false) before
          ∧ is_exit lower q = true
          ∧ length printed = S (length before)
          ∧ last printed = Some "Bye!"
    | Traceback e =>
        e = EOFError
        ∧ Forall (fun x => is_exit lower x = false) inputs
        ∧ length printed = length inputs
        ∨ e = AttributeError "dict" "name"
          ∧ length printed < length inputs
    end.
Proof.
  induction inputs as [|x inputs IH]; intros conversation printed ending; simpl.
  - intros [= <- <-]. left. split; [reflexivity|]. split; [constructor | reflexivity].
  - destruct (is_exit lower x) eqn:Hexit.
    + intros [= <- <-]. exists [], x, inputs.
      repeat split; [constructor | exact Hexit].
    + set (run := invoke w fuel _).
      destruct (run_status run) as [|e|] eqn:Hstatus; [| |discriminate].
      * destruct (GraphRuns.run_done_shape _ _ _ Hstatus)
          as (_ & m & _ & _ & Hlast & _).
        fold run in Hlast. rewrite Hlast.
        destruct (chat_loop w fuel lower (messages (run_state run)) inputs)
          as [[printed' ending']|] eqn:Hrest; [|discriminate].
        intros [= <- <-]. specialize (IH _ _ _ Hrest).
        destruct ending' as [|e].
        -- destruct IH as (before & q & after & -> & Hbefore & Hq & Hlen & Hbye).
           exists (x :: before), q, after.
           split; [reflexivity|]. split; [constructor; assumption|].
           split; [exact Hq|]. split; [simpl; rewrite Hlen; reflexivity|].
           destruct printed'; [discriminate Hlen | exact Hbye].
        -- destruct IH as [(-> & Hall & Hlen) | (-> & Hlen)].
           ++ left. split; [reflexivity|].
              split; [constructor; assumption | simpl; rewrite Hlen; reflexivity].
           ++ right. split; [reflexivity | simpl; lia].
      * destruct (GraphRuns.run_crash_cause _ _ _ _ (question_not_nil _ _) Hstatus)
          as (-> & _).
        intros [= <- <-]. right. split; [reflexivity | simpl; lia].
Qed.

Lemma chat_loop_endings_witness :
  ∃ before q after,
    ["Thanks!"; "Quit"; "What places to visit in Manali?"] = before ++ q :: after
    ∧ Forall (fun x => is_exit toy_lower x = false) before
    ∧ is_exit toy_lower q = true
    ∧ length ["Bot: You are welcome."; "Bye!"] = S (length before)
    ∧ last ["Bot: You are welcome."; "Bye!"] = Some "Bye!".
Proof.
  apply (chat_loop_endings travel_world 5 toy_lower
           ["Thanks!"; "Quit"; "What places to visit in Manali?"] []
           ["Bot: You are welcome."; "Bye!"] Bye).
  vm_compute. reflexivity.
Defined.

End Frontends.
